(** * Activity-Relay: the inbox routing engine, its statistics and delay metrics

    A shallow embedding of
      - [src/api/handle.go]   (handleInbox, handleAdminUnfollow, recordDelayMetrics),
      - [src/api/stats.go]    (IncrementInboxCount, GetDeliveryStats, handleDeliveryStats),
      - [src/delaymetrics/delaymetrics.go] (RecordDelay),
    with the properties the specification states about them.

    Conventions.
      - Go strings and byte slices are [string]; Go [int] and [int64] are [Z]
        with the 64-bit wrap-around written out ([wrap64]); integer division
        is Go's truncating division ([Z.quot]).
      - A [time.Time] is the number of nanoseconds since the Unix epoch, a
        [time.Duration] a number of nanoseconds.
      - Process-wide globals ([RelayState], [delaymetrics.redisClient], the
        wall clock) are the fields of [World]; effectful code is written in the
        state monad [M] over it.
      - Functions of the repository that the handlers call but whose source is
        not part of the verified files, and the Go standard library functions
        they use, are the fields of the interface [Env]; the handlers are
        embedded over any [Env].  Module [spec] fills the interface with the
        behaviour the specification gives these helpers, module [example]
        sets up a small relay with it. *)

From Stdlib Require Import Ascii.
From stdpp Require Import gmap strings list fin_maps pretty.

Set Warnings "-register-all".
Set Default Proof Using "Type".
Open Scope string_scope.
Open Scope list_scope.
Open Scope stdpp_scope.
Open Scope Z_scope.

(** ** Machine integers *)

Definition int64_min : Z := - 2 ^ 63.
Definition int64_max : Z := 2 ^ 63 - 1.

(** Two's complement wrap-around of a 64-bit signed integer. *)
Definition wrap64 (z : Z) : Z := (z + 2 ^ 63) mod 2 ^ 64 - 2 ^ 63.

(** ** Time *)

Module time.
(** Nanoseconds since the Unix epoch. *)
Definition Time := Z.
(** Nanoseconds. *)
Definition Duration := Z.

Definition Second : Duration := 1000000000.
Definition Hour : Duration := 3600 * Second.

(** [t.Unix()]: whole seconds since the epoch (the nanosecond part of a
    [Time] is never negative, so this is the floor). *)
Definition Unix (t : Time) : Z := t `div` Second.

(** [t.Sub(u)]: the difference, saturated to the range of [Duration]. *)
Definition Sub (t u : Time) : Duration :=
  if t - u <? int64_min then int64_min
  else if int64_max <? t - u then int64_max
  else t - u.
End time.

(** ** JSON values: what an [interface{}] holds after decoding *)

Inductive JSON :=
| JNull
| JBool (b : bool)
| JNumber (z : Z)
| JString (s : string)
| JArray (l : list JSON)
| JObject (m : gmap string JSON).

(** [v, ok := obj[k].(string)]: the string under [k], when there is one. *)
Definition field_string (obj : gmap string JSON) (k : string) : option string :=
  match obj !! k with
  | Some (JString s) => Some s
  | _ => None
  end.

(** ** Redis, as far as the relay uses it

    String keys holding integers (INCR, GET), hashes (HSET, HINCRBY, ...),
    sets (SADD) and time-to-live marks (EXPIRE).  The server is taken to be
    reachable: a command never fails. *)

Module redis.
Inductive Val :=
| VInt (z : Z)
| VFloat (ns : Z)      (* a float64 number of seconds, kept as exact nanoseconds *)
| VStr (s : string).

Record Client := {
  strs : gmap string Z;
  hashes : gmap string (gmap string Val);
  sets : gmap string (gset string);
  ttl : gmap string Z;
}.

Definition empty : Client :=
  {| strs := ∅; hashes := ∅; sets := ∅; ttl := ∅ |}.

Definition exists_key (c : Client) (key : string) : bool :=
  bool_decide (is_Some (strs c !! key))
  || bool_decide (is_Some (hashes c !! key))
  || bool_decide (is_Some (sets c !! key)).

(** INCR: a missing key counts as 0. *)
Definition Incr (key : string) (c : Client) : Client :=
  {| strs := <[key := default 0 (strs c !! key) + 1]> (strs c);
     hashes := hashes c; sets := sets c; ttl := ttl c |}.

(** EXPIRE: sets the time to live of an existing key only. *)
Definition Expire (key : string) (d : time.Duration) (c : Client) : Client :=
  if exists_key c key
  then {| strs := strs c; hashes := hashes c; sets := sets c;
          ttl := <[key := d]> (ttl c) |}
  else c.

(** [Get(key).Int64()] with the error dropped: 0 for a missing key. *)
Definition GetInt64 (key : string) (c : Client) : Z :=
  default 0 (strs c !! key).

Definition hash (c : Client) (key : string) : gmap string Val :=
  default ∅ (hashes c !! key).

Definition with_hash (key : string) (h : gmap string Val) (c : Client) : Client :=
  {| strs := strs c; hashes := <[key := h]> (hashes c);
     sets := sets c; ttl := ttl c |}.

Definition HGet (key field : string) (c : Client) : option Val :=
  hash c key !! field.

Definition HSet (key field : string) (v : Val) (c : Client) : Client :=
  with_hash key (<[field := v]> (hash c key)) c.

Definition HSetNX (key field : string) (v : Val) (c : Client) : Client :=
  match HGet key field c with
  | Some _ => c
  | None => HSet key field v c
  end.

Definition HIncrBy (key field : string) (n : Z) (c : Client) : Client :=
  let old := match HGet key field c with Some (VInt z) => z | _ => 0 end in
  HSet key field (VInt (old + n)) c.

Definition HIncrByFloat (key field : string) (ns : Z) (c : Client) : Client :=
  let old := match HGet key field c with
             | Some (VFloat z) => z
             | Some (VInt z) => z * time.Second
             | _ => 0
             end in
  HSet key field (VFloat (old + ns)) c.

Definition SAdd (key member : string) (c : Client) : Client :=
  {| strs := strs c; hashes := hashes c;
     sets := <[key := {[member]} ∪ default ∅ (sets c !! key)]> (sets c);
     ttl := ttl c |}.
End redis.

(** ** The process state and the state monad *)

Module models.
Module Subscriber.
Record t := {
  Domain : string;
  InboxURL : string;
  ActivityID : string;
  ActorID : string;
}.
End Subscriber.

Module Follower.
Record t := {
  Domain : string;
  InboxURL : string;
  ActivityID : string;
  ActorID : string;
}.
End Follower.

Module Actor.
Record t := {
  ID : string;
  Inbox : string;
}.
End Actor.

Module Activity.
Record t := {
  Context_ : list string;
  ID : string;
  Actor : string;
  Type_ : string;
  Object : JSON;
  To : list string;
  Cc : list string;
  Published : string;
}.
End Activity.
End models.
Import models.

(** A delivery job handed to the asynchronous dispatcher. *)
Record DeliveryJob := {
  destinationInboxURL : string;
  payload : string;
}.

(** A pending follow request, kept until an administrator decides. *)
Record PendingRequest := {
  pendingDomain : string;
  pendingInboxURL : string;
  pendingActivityID : string;
  pendingActorID : string;
}.

(** The relay's configuration, fixed at start-up. *)
Record RelayConfig := {
  BlockedDomains : list string;
  ManuallyAccept : bool;
}.

(** [RelayState] together with what the helpers of package [api] act on:
    the two membership collections and the Redis client of [RelayState]
    itself, and with them the follow requests awaiting approval, the
    configuration, the queue of delivery jobs and the log of the remote
    fetches made. *)
Record RelayStateT := {
  Subscribers : list Subscriber.t;
  Followers : list Follower.t;
  Pending : list PendingRequest;
  Config : RelayConfig;
  RedisClient : redis.Client;
  Queue : list DeliveryJob;
  Fetched : list string;
}.

Definition with_RedisClient (c : redis.Client) (rs : RelayStateT) : RelayStateT :=
  {| Subscribers := Subscribers rs; Followers := Followers rs;
     Pending := Pending rs; Config := Config rs;
     RedisClient := c; Queue := Queue rs; Fetched := Fetched rs |}.

Definition with_Subscribers (l : list Subscriber.t) (rs : RelayStateT) : RelayStateT :=
  {| Subscribers := l; Followers := Followers rs;
     Pending := Pending rs; Config := Config rs;
     RedisClient := RedisClient rs; Queue := Queue rs; Fetched := Fetched rs |}.

Definition with_Followers (l : list Follower.t) (rs : RelayStateT) : RelayStateT :=
  {| Subscribers := Subscribers rs; Followers := l;
     Pending := Pending rs; Config := Config rs;
     RedisClient := RedisClient rs; Queue := Queue rs; Fetched := Fetched rs |}.

Definition with_Pending (l : list PendingRequest) (rs : RelayStateT) : RelayStateT :=
  {| Subscribers := Subscribers rs; Followers := Followers rs;
     Pending := l; Config := Config rs;
     RedisClient := RedisClient rs; Queue := Queue rs; Fetched := Fetched rs |}.

Definition with_Queue (l : list DeliveryJob) (rs : RelayStateT) : RelayStateT :=
  {| Subscribers := Subscribers rs; Followers := Followers rs;
     Pending := Pending rs; Config := Config rs;
     RedisClient := RedisClient rs; Queue := l; Fetched := Fetched rs |}.

Definition with_Fetched (l : list string) (rs : RelayStateT) : RelayStateT :=
  {| Subscribers := Subscribers rs; Followers := Followers rs;
     Pending := Pending rs; Config := Config rs;
     RedisClient := RedisClient rs; Queue := Queue rs; Fetched := l |}.

(** The wall clock: [Clock n] is what the [n]-th call of [time.Now()]
    returns; [Ticks] counts the calls made so far. *)
Record World := {
  RelayState : RelayStateT;
  redisClient : option redis.Client;     (* delaymetrics.redisClient; None is nil *)
  Clock : nat -> time.Time;
  Ticks : nat;
}.

Definition M (A : Type) : Type := World -> World * A.

Definition ret {A} (a : A) : M A := fun w => (w, a).
Definition bind {A B} (m : M A) (k : A -> M B) : M B :=
  fun w => let (w', a) := m w in k a w'.

Notation "x <- m ;; k" := (bind m (fun x => k))
  (at level 100, m at next level, right associativity).
Notation "m ;;; k" := (bind m (fun _ => k))
  (at level 100, right associativity).

(** What [time.Now()] returns next, and the world after the call. *)
Definition now (w : World) : time.Time := Clock w (Ticks w).

Definition ticked (w : World) : World :=
  {| RelayState := RelayState w; redisClient := redisClient w;
     Clock := Clock w; Ticks := S (Ticks w) |}.

(** [time.Now()] *)
Definition time_Now : M time.Time := fun w => (ticked w, now w).

Definition setRelayState (rs : RelayStateT) (w : World) : World :=
  {| RelayState := rs; redisClient := redisClient w;
     Clock := Clock w; Ticks := Ticks w |}.

(** Read [RelayState]. *)
Definition getRelayState : M RelayStateT := fun w => (w, RelayState w).

(** Run a command on [RelayState]. *)
Definition onRelayState {A} (f : RelayStateT -> RelayStateT * A) : M A :=
  fun w => let (rs, a) := f (RelayState w) in (setRelayState rs w, a).

Definition modRelayState (f : RelayStateT -> RelayStateT) : M unit :=
  onRelayState (fun rs => (f rs, tt)).

(** Run Redis commands on [RelayState.RedisClient]. *)
Definition onRedis (f : redis.Client -> redis.Client) : M unit :=
  modRelayState (fun rs => with_RedisClient (f (RedisClient rs)) rs).

(** ** HTTP *)

Record Request := {
  Method : string;
  Query : gmap string (list string);
  RequestBody : string;
}.

(** [request.URL.Query().Get(key)]: the first value, or the empty string. *)
Definition Query_Get (request : Request) (key : string) : string :=
  match Query request !! key with
  | Some (v :: _) => v
  | _ => ""
  end.

(** ** src/api/stats.go *)

Record DeliveryStats := {
  Timestamp : Z;
  Inbox : Z;
  Outbox : Z;
}.

Record StatsResponse := {
  Current : DeliveryStats;
  History : list DeliveryStats;
}.

(** [strconv.FormatInt(z, 10)] *)
Definition FormatInt (z : Z) : string := pretty z.

(** [now.Unix() / 60 * 60] *)
Definition minuteBucket (now : time.Time) : Z :=
  wrap64 (time.Unix now ÷ 60 * 60).

Definition IncrementInboxCount : M unit :=
  now <- time_Now ;;
  let bucket := minuteBucket now in
  let key := "relay:stats:inbox:" +:+ FormatInt bucket in
  onRedis (redis.Incr key) ;;;
  onRedis (redis.Expire key (25 * time.Hour)) ;;;
  onRedis (redis.Incr "relay:stats:inbox:total").

Definition IncrementOutboxCount : M unit :=
  now <- time_Now ;;
  let bucket := minuteBucket now in
  let key := "relay:stats:outbox:" +:+ FormatInt bucket in
  onRedis (redis.Incr key) ;;;
  onRedis (redis.Expire key (25 * time.Hour)) ;;;
  onRedis (redis.Incr "relay:stats:outbox:total").

(** The body of the loop of [GetDeliveryStats] at loop variable [i]. *)
Definition historyEntry (c : redis.Client) (currentBucket : Z) (i : Z) : DeliveryStats :=
  let bucket := wrap64 (currentBucket - wrap64 (i * 60)) in
  let inboxKey := "relay:stats:inbox:" +:+ FormatInt bucket in
  let outboxKey := "relay:stats:outbox:" +:+ FormatInt bucket in
  {| Timestamp := bucket;
     Inbox := redis.GetInt64 inboxKey c;
     Outbox := redis.GetInt64 outboxKey c |}.

(** [for i := buckets - 1; i >= 0; i-- { history = append(history, ...) }],
    with [n = i + 1] iterations left. *)
Fixpoint historyLoop (c : redis.Client) (currentBucket : Z) (n : nat)
    (history : list DeliveryStats) : list DeliveryStats :=
  match n with
  | O => history
  | S i => historyLoop c currentBucket i
             (history ++ [historyEntry c currentBucket (Z.of_nat i)])
  end.

Definition GetDeliveryStats (hours : Z) : M StatsResponse :=
  now <- time_Now ;;
  fun w =>
    let c := RedisClient (RelayState w) in
    let currentBucket := minuteBucket now in
    let current := {| Timestamp := time.Unix now;
                      Inbox := redis.GetInt64 "relay:stats:inbox:total" c;
                      Outbox := redis.GetInt64 "relay:stats:outbox:total" c |} in
    let buckets := wrap64 (hours * 60) in
    (w, {| Current := current;
           History := historyLoop c currentBucket (Z.to_nat buckets) [] |}).

(** [strconv.Atoi]: an optional sign and one or more decimal digits, within
    the range of a 64-bit [int]. *)
Definition digitValue (c : Ascii.ascii) : option Z :=
  let n := Z.of_nat (Ascii.nat_of_ascii c) in
  if (48 <=? n) && (n <=? 57) then Some (n - 48) else None.

Fixpoint digitsValue (s : string) (acc : Z) : option Z :=
  match s with
  | EmptyString => Some acc
  | String c s' =>
      match digitValue c with
      | Some d => digitsValue s' (acc * 10 + d)
      | None => None
      end
  end.

Definition Atoi (s : string) : option Z :=
  let '(neg, body) :=
    match s with
    | String "-"%char s' => (true, s')
    | String "+"%char s' => (false, s')
    | _ => (false, s)
    end in
  match body with
  | EmptyString => None
  | _ =>
      match digitsValue body 0 with
      | Some n =>
          let z := if neg : bool then - n else n in
          if (int64_min <=? z) && (z <=? int64_max) then Some z else None
      | None => None
      end
  end.

(** What a handler writes: the status, the headers it set, and the body. *)
Inductive Body :=
| BodyNil
| BodyText (s : string)
| BodyJSON (fields : list (string * JSON))
| BodyStats (stats : StatsResponse).

Record Response := {
  Status : Z;
  Header : list (string * string);
  ResponseBody : Body;
}.

Definition respond (status : Z) (body : Body) : Response :=
  {| Status := status; Header := []; ResponseBody := body |}.

(** The [hours] parameter as [handleDeliveryStats] reads it. *)
Definition hoursParam (request : Request) : Z :=
  let hoursStr := Query_Get request "hours" in
  if decide (hoursStr ≠ "") then
    match Atoi hoursStr with
    | Some h => if (0 <? h) && (h <=? 24) then h else 1
    | None => 1
    end
  else 1.

(** [json.Marshal] of a [StatsResponse], a struct of integers, returns no
    error: the branch that writes 500 is never taken and is left out. *)
Definition handleDeliveryStats (request : Request) : M Response :=
  if decide (Method request ≠ "GET") then
    ret (respond 400 BodyNil)
  else
    let hours := hoursParam request in
    stats <- GetDeliveryStats hours ;;
    ret {| Status := 200;
           Header := [("Access-Control-Allow-Origin", "*");
                      ("Content-Type", "application/json")];
           ResponseBody := BodyStats stats |}.

(** ** src/delaymetrics/delaymetrics.go *)

Module delaymetrics.
Record DelayRecord := {
  NoteID : string;
  CreatedAt : time.Time;
  ReceivedAt : time.Time;
  DelaySeconds : time.Duration;   (* float64 seconds, kept as exact nanoseconds *)
  InstanceHost : string;
  InstanceName : string;
  SoftwareName : string;
  SoftwareVersion : string;
}.

(** Run Redis commands on the package's own client. *)
Definition onClient (f : redis.Client -> redis.Client) : M unit :=
  fun w => ({| RelayState := RelayState w;
               redisClient := f <$> redisClient w;
               Clock := Clock w; Ticks := Ticks w |}, tt).

(** Lua's [tonumber] on a stored field. *)
Definition tonumber (v : option redis.Val) : option Z :=
  match v with
  | Some (redis.VFloat ns) => Some ns
  | Some (redis.VInt z) => Some (z * time.Second)
  | _ => None
  end.

(** The script that moves [min_delay] and [max_delay]. *)
Definition updateMinMaxScript (hourKey : string) (new_val : Z)
    (c : redis.Client) : redis.Client :=
  let current_min := tonumber (redis.HGet hourKey "min_delay" c) in
  let current_max := tonumber (redis.HGet hourKey "max_delay" c) in
  let c1 := match current_min with
            | None => redis.HSet hourKey "min_delay" (redis.VFloat new_val) c
            | Some m => if new_val <? m
                        then redis.HSet hourKey "min_delay" (redis.VFloat new_val) c
                        else c
            end in
  match current_max with
  | None => redis.HSet hourKey "max_delay" (redis.VFloat new_val) c1
  | Some m => if m <? new_val
              then redis.HSet hourKey "max_delay" (redis.VFloat new_val) c1
              else c1
  end.

Definition setIfNonEmpty (hourKey field value : string)
    (c : redis.Client) : redis.Client :=
  if decide (value ≠ "") then redis.HSet hourKey field (redis.VStr value) c else c.

(** The commands queued on the pipeline, in order. *)
Definition pipeline (record : DelayRecord) (now : time.Time)
    (c : redis.Client) : redis.Client :=
  let hourBucket := wrap64 (time.Unix now ÷ 3600 * 3600) in
  let hourKey := "fdma:hour:" +:+ FormatInt hourBucket +:+ ":" +:+ InstanceHost record in
  let delayKey := "fdma:delays:" +:+ FormatInt hourBucket +:+ ":" +:+ InstanceHost record in
  let instancesKey := "fdma:instances:" +:+ FormatInt hourBucket in
  let c := redis.HIncrBy hourKey "count" 1 c in
  let c := redis.HIncrByFloat hourKey "total_delay" (DelaySeconds record) c in
  let c := redis.HSet hourKey "host" (redis.VStr (InstanceHost record)) c in
  let c := redis.HSet hourKey "last_updated" (redis.VInt (time.Unix now)) c in
  let c := setIfNonEmpty hourKey "name" (InstanceName record) c in
  let c := setIfNonEmpty hourKey "software_name" (SoftwareName record) c in
  let c := setIfNonEmpty hourKey "software_version" (SoftwareVersion record) c in
  let c := redis.HSetNX hourKey "min_delay" (redis.VFloat (DelaySeconds record)) c in
  let c := redis.HSetNX hourKey "max_delay" (redis.VFloat (DelaySeconds record)) c in
  let c := redis.Expire hourKey (25 * time.Hour) c in
  let c := redis.Expire delayKey (25 * time.Hour) c in
  let c := redis.SAdd instancesKey (InstanceHost record) c in
  let c := redis.Expire instancesKey (25 * time.Hour) c in
  redis.SAdd "fdma:all_instances" (InstanceHost record) c.

(** [RecordDelay]; the result is the error, [None] for nil. *)
Definition RecordDelay (record : DelayRecord) : M (option string) :=
  fun w =>
    match redisClient w with
    | None => (w, None)
    | Some _ =>
        (now <- time_Now ;;
         let hourBucket := wrap64 (time.Unix now ÷ 3600 * 3600) in
         let hourKey := "fdma:hour:" +:+ FormatInt hourBucket +:+ ":"
                        +:+ InstanceHost record in
         onClient (pipeline record now) ;;;
         onClient (updateMinMaxScript hourKey (DelaySeconds record)) ;;;
         ret None) w
    end.
End delaymetrics.

(** ** The interface to the code outside the verified files *)

Module url.
Record URL := { Host : string }.
End url.

Definition error := string.

Definition Public : string := "https://www.w3.org/ns/activitystreams#Public".

(** [UnwrapInnerActivity] and [GenerateReply] are methods of
    [models.Activity]: their first argument is the receiver.  A helper that
    reads or writes [RelayState] takes it as its last argument and returns the
    new one; an [option error] is the error returned, [None] for nil. *)
Record Env := {
  (* the Go standard library *)
  url_Parse : string -> option url.URL;                  (* None: nil, with an error *)
  time_Parse : string -> string -> option time.Time;     (* layout, value *)
  json_Marshal : Activity.t -> string;
  json_Decode_domain : string -> error + string;         (* into struct{Domain string} *)
  (* configuration *)
  RelayActor : Actor.t;
  (* helpers of package api and methods of package models *)
  isToMyFollower : RelayStateT -> list string -> bool;
  isActorSubscribersOrFollowers : RelayStateT -> option url.URL -> bool;
  executeRelayActivity :
    Activity.t -> Actor.t -> string -> RelayStateT -> RelayStateT * option error;
  executeFollowing :
    Activity.t -> Actor.t -> RelayStateT -> RelayStateT * option error;
  executeUnfollowing :
    Activity.t -> Actor.t -> RelayStateT -> RelayStateT * option error;
  executeRejectRequest :
    Activity.t -> Actor.t -> error -> RelayStateT -> RelayStateT;
  finalizeMutuallyFollow :
    Activity.t -> Actor.t -> string -> RelayStateT -> RelayStateT;
  fetchOriginalActivityFromURL :
    string -> RelayStateT -> RelayStateT * (error + Activity.t * Actor.t);
  executeAnnounceActivity :
    Activity.t -> Actor.t -> RelayStateT -> RelayStateT;
  enqueueRegisterActivity : string -> string -> RelayStateT -> RelayStateT;
  UnwrapInnerActivity : Activity.t -> error + Activity.t;
  GenerateReply : Activity.t -> Actor.t -> Activity.t -> string -> Activity.t;
  SelectSubscriber : RelayStateT -> string -> option Subscriber.t;
  SelectFollower : RelayStateT -> string -> option Follower.t;
  DelSubscriber : string -> RelayStateT -> RelayStateT;
  DelFollower : string -> RelayStateT -> RelayStateT;
}.

(** Modelled from the spec: [contains], the membership test of a recipient
    list, is not among the verified files; the classifier "contains the
    well-known public-audience URI" and "contains the Relay Actor's own ID". *)
Definition contains (entries : list string) (key : string) : bool :=
  bool_decide (key ∈ entries).

(** ** src/api/handle.go *)

Module RFC.
(** [time.RFC3339] and [time.RFC3339Nano] *)
Definition RFC3339 : string := "2006-01-02T15:04:05Z07:00".
Definition RFC3339Nano : string := "2006-01-02T15:04:05.999999999Z07:00".
End RFC.

(** The layouts [recordDelayMetrics] tries, in order. *)
Definition formats : list string :=
  [RFC.RFC3339; RFC.RFC3339Nano; "2006-01-02T15:04:05.000Z"; "2006-01-02T15:04:05Z"].

(** The zero [time.Time], January 1 of year 1. *)
Definition zeroTime : time.Time := -62135596800 * time.Second.

(** [for _, format := range formats { createdAt, err = time.Parse(...); if err == nil { break } }]
    from the values [last] of [createdAt, err] before the loop. *)
Fixpoint parseLoop (E : Env) (fs : list string) (createdAtStr : string)
    (last : error + time.Time) : error + time.Time :=
  match fs with
  | [] => last
  | format :: rest =>
      match time_Parse E format createdAtStr with
      | Some createdAt => inr createdAt
      | None => parseLoop E rest createdAtStr (inl "parsing time")
      end
  end.

(** 24 hours, the largest delay recorded. *)
Definition maxDelay : time.Duration := 86400 * time.Second.

(** [published] and [id] as read from the activity and its object: the
    values of [createdAtStr] and [objectID] before the emptiness checks. *)
Definition extractCreatedAt (activity : Activity.t) : string * string :=
  let createdAtStr := Activity.Published activity in
  match Activity.Object activity with
  | JObject obj =>
      (if decide (createdAtStr = "")
       then default createdAtStr (field_string obj "published")
       else createdAtStr,
       default "" (field_string obj "id"))
  | JString obj => (createdAtStr, obj)
  | _ => (createdAtStr, "")
  end.

(** The record [recordDelayMetrics] builds for [delaymetrics.RecordDelay],
    [None] where it returns before building one.

    [delaySeconds] is [receivedAt.Sub(createdAt).Seconds()], a float64.  It is
    kept as the duration itself: [Seconds()] is negative exactly when the
    duration is, and above 86400 exactly when the duration is above 86400
    seconds, a nanosecond being far more than the spacing of float64 numbers
    near 86400. *)
Definition delayRecord (E : Env) (activity : Activity.t) (actorID : url.URL)
    (receivedAt : time.Time) : option delaymetrics.DelayRecord :=
  let '(createdAtStr, objectID) := extractCreatedAt activity in
  if decide (createdAtStr = "") then None
  else
    let objectID := if decide (objectID = "") then Activity.ID activity
                    else objectID in
    match parseLoop E formats createdAtStr (inr zeroTime) with
    | inl _ => None
    | inr createdAt =>
        let delaySeconds := time.Sub receivedAt createdAt in
        if (delaySeconds <? 0) || (maxDelay <? delaySeconds) then None
        else
          Some {| delaymetrics.NoteID := objectID;
                  delaymetrics.CreatedAt := createdAt;
                  delaymetrics.ReceivedAt := receivedAt;
                  delaymetrics.DelaySeconds := delaySeconds;
                  delaymetrics.InstanceHost := url.Host actorID;
                  delaymetrics.InstanceName := "";
                  delaymetrics.SoftwareName := "";
                  delaymetrics.SoftwareVersion := "" |}
    end.

Definition recordDelayMetrics (E : Env) (activity : option Activity.t)
    (actorID : option url.URL) (receivedAt : time.Time) : M unit :=
  match activity, actorID with
  | Some activity, Some actorID =>
      match delayRecord E activity actorID receivedAt with
      | Some record => delaymetrics.RecordDelay record ;;; ret tt
      | None => ret tt
      end
  | _, _ => ret tt
  end.

(** [executeFollowing] or [executeUnfollowing], and the Reject request when
    it fails: [err = f(...); if err != nil { executeRejectRequest(activity, actor, err) }]. *)
Definition orReject (E : Env)
    (f : RelayStateT -> RelayStateT * option error)
    (activity : Activity.t) (actor : Actor.t) : M unit :=
  err <- onRelayState f ;;
  match err with
  | Some err => modRelayState (executeRejectRequest E activity actor err)
  | None => ret tt
  end.

(** First case of the switch: Mastodon Traditional Style (Activity Transfer). *)
Definition inboxTraditional (E : Env) (activity : Activity.t) (actor : Actor.t)
    (body : string) : M Response :=
  let ty := Activity.Type_ activity in
  if decide (ty = "Create" \/ ty = "Update" \/ ty = "Delete" \/ ty = "Move") then
    err <- onRelayState (executeRelayActivity E activity actor body) ;;
    match err with
    | Some err => ret (respond 401 (BodyText err))
    | None => ret (respond 202 BodyNil)
    end
  else ret (respond 202 BodyNil).

(** Second and third case: LitePub Relay Style. *)
Definition inboxLitePub (E : Env) (activity : Activity.t) (actor : Actor.t)
    (actorID : option url.URL) : M Response :=
  let ty := Activity.Type_ activity in
  if decide (ty = "Follow") then
    orReject E (executeFollowing E activity actor) activity actor ;;;
    ret (respond 202 BodyNil)
  else if decide (ty = "Undo") then
    match UnwrapInnerActivity E activity with
    | inl _ => ret (respond 202 BodyNil)
    | inr innerActivity =>
        if decide (Activity.Type_ innerActivity = "Follow") then
          orReject E (executeUnfollowing E innerActivity actor) activity actor ;;;
          ret (respond 202 BodyNil)
        else ret (respond 202 BodyNil)
    end
  else if decide (ty = "Accept") then
    match UnwrapInnerActivity E activity with
    | inl _ => ret (respond 202 BodyNil)
    | inr innerActivity =>
        if decide (Activity.Type_ innerActivity = "Follow") then
          modRelayState (finalizeMutuallyFollow E innerActivity actor ty) ;;;
          ret (respond 202 BodyNil)
        else ret (respond 202 BodyNil)
    end
  else if decide (ty = "Reject") then
    match UnwrapInnerActivity E activity with
    | inl _ => ret (respond 202 BodyNil)
    | inr innerActivity =>
        if decide (Activity.Type_ innerActivity = "Follow") then
          modRelayState (finalizeMutuallyFollow E innerActivity actor ty) ;;;
          ret (respond 202 BodyNil)
        else ret (respond 202 BodyNil)
    end
  else if decide (ty = "Announce") then
    rs <- getRelayState ;;
    if negb (isActorSubscribersOrFollowers E rs actorID) then
      ret (respond 401 (BodyText "to use the relay service, please follow in advance"))
    else
      match Activity.Object activity with
      | JString innerObject =>
          fetched <- onRelayState (fetchOriginalActivityFromURL E innerObject) ;;
          match fetched with
          | inl err => ret (respond 400 (BodyText err))
          | inr (origActivity, origActor) =>
              modRelayState (executeAnnounceActivity E origActivity origActor) ;;;
              ret (respond 202 BodyNil)
          end
      | _ => ret (respond 202 BodyNil)
      end
  else ret (respond 202 BodyNil).

(** Default case: Follow, Unfollow Only. *)
Definition inboxFollowOnly (E : Env) (activity : Activity.t) (actor : Actor.t)
    : M Response :=
  let ty := Activity.Type_ activity in
  if decide (ty = "Follow") then
    orReject E (executeFollowing E activity actor) activity actor ;;;
    ret (respond 202 BodyNil)
  else if decide (ty = "Undo") then
    match UnwrapInnerActivity E activity with
    | inl _ => ret (respond 202 BodyNil)
    | inr innerActivity =>
        if decide (Activity.Type_ innerActivity = "Follow") then
          orReject E (executeUnfollowing E innerActivity actor) activity actor ;;;
          ret (respond 202 BodyNil)
        else ret (respond 202 BodyNil)
    end
  else ret (respond 202 BodyNil).

(** The switch on the addressing of the activity, first match first. *)
Definition inboxSwitch (E : Env) (activity : Activity.t) (actor : Actor.t)
    (body : string) (actorID : option url.URL) : M Response :=
  rs <- getRelayState ;;
  if contains (Activity.To activity) Public || contains (Activity.Cc activity) Public then
    inboxTraditional E activity actor body
  else if contains (Activity.To activity) (Actor.ID (RelayActor E))
          || contains (Activity.Cc activity) (Actor.ID (RelayActor E)) then
    (* fallthrough *)
    inboxLitePub E activity actor actorID
  else if isToMyFollower E rs (Activity.To activity)
          || isToMyFollower E rs (Activity.Cc activity) then
    inboxLitePub E activity actor actorID
  else
    inboxFollowOnly E activity actor.

Definition handleInbox (E : Env) (request : Request)
    (activityDecoder : Request -> error + Activity.t * Actor.t * string)
    : M Response :=
  if decide (Method request = "POST") then
    receivedAt <- time_Now ;;
    IncrementInboxCount ;;;
    match activityDecoder request with
    | inl _ => ret (respond 400 BodyNil)
    | inr (activity, actor, body) =>
        let actorID := url_Parse E (Activity.Actor activity) in
        recordDelayMetrics E (Some activity) actorID receivedAt ;;;
        inboxSwitch E activity actor body actorID
    end
  else ret (respond 405 BodyNil).

Definition jsonResponse (status : Z) (fields : list (string * JSON)) : Response :=
  {| Status := status;
     Header := [("Content-Type", "application/json")];
     ResponseBody := BodyJSON fields |}.

(** The Follow activity a member's record stands for, with the given object. *)
Definition followOf (activityID actorID : string) (object : string) : Activity.t :=
  {| Activity.Context_ := ["https://www.w3.org/ns/activitystreams";
                           "https://w3id.org/security/v1"];
     Activity.ID := activityID;
     Activity.Actor := actorID;
     Activity.Type_ := "Follow";
     Activity.Object := JString object;
     Activity.To := [];
     Activity.Cc := [];
     Activity.Published := "" |}.

Definition handleAdminUnfollow (E : Env) (request : Request) : M Response :=
  if decide (Method request ≠ "POST") then ret (respond 405 BodyNil)
  else
    match json_Decode_domain E (RequestBody request) with
    | inl _ => ret (jsonResponse 400 [("error", JString "invalid request body")])
    | inr domain =>
        if decide (domain = "") then
          ret (jsonResponse 400 [("error", JString "domain required")])
        else
          rs <- getRelayState ;;
          match SelectSubscriber E rs domain with
          | Some subscriber =>
              let activity := followOf (Subscriber.ActivityID subscriber)
                                (Subscriber.ActorID subscriber) Public in
              let resp := GenerateReply E activity (RelayActor E) activity "Reject" in
              let jsonData := json_Marshal E resp in
              modRelayState
                (enqueueRegisterActivity E (Subscriber.InboxURL subscriber) jsonData) ;;;
              modRelayState (DelSubscriber E (Subscriber.Domain subscriber)) ;;;
              ret (jsonResponse 200 [("success", JBool true);
                                     ("type", JString "subscriber")])
          | None =>
              rs <- getRelayState ;;
              match SelectFollower E rs domain with
              | Some follower =>
                  let activity := followOf (Follower.ActivityID follower)
                                    (Follower.ActorID follower)
                                    (Actor.ID (RelayActor E)) in
                  let resp := GenerateReply E activity (RelayActor E) activity "Reject" in
                  let jsonData := json_Marshal E resp in
                  modRelayState
                    (enqueueRegisterActivity E (Follower.InboxURL follower) jsonData) ;;;
                  modRelayState (DelFollower E (Follower.Domain follower)) ;;;
                  ret (jsonResponse 200 [("success", JBool true);
                                         ("type", JString "follower")])
              | None =>
                  ret (jsonResponse 404
                         [("error",
                           JString "Domain not found in subscribers or followers")])
              end
          end
    end.

(** ** The helpers outside the verified files, modelled from the specification *)

Module spec.
Section Helpers.
(** The standard library functions, the relay's own actor and the origin
  servers ([remote url] is what a fetch of [url] returns, if anything). *)
Variable parseURL : string -> option url.URL.
Variable parseTime : string -> string -> option time.Time.
Variable marshal : Activity.t -> string.
Variable decodeDomain : string -> error + string.
Variable relayActor : Actor.t.
Variable remote : string -> option (Activity.t * Actor.t).

(** The domain a sender is registered under: "domain derived from sender". *)
Definition domainOf (actor : Actor.t) : string :=
match parseURL (Actor.ID actor) with
| Some u => url.Host u
| None => ""
end.

Definition strings (l : list JSON) : list string :=
omap (fun j => match j with JString s => Some s | _ => None end) l.

Definition stringList (obj : gmap string JSON) (k : string) : list string :=
match obj !! k with
| Some (JArray l) => strings l
| Some (JString s) => [s]
| _ => []
end.

(** An activity as a JSON object and back. *)
Definition activityToJSON (a : Activity.t) : JSON :=
JObject (<["@context" := JArray (JString <$> Activity.Context_ a)]>
        (<["id" := JString (Activity.ID a)]>
        (<["actor" := JString (Activity.Actor a)]>
        (<["type" := JString (Activity.Type_ a)]>
        (<["object" := Activity.Object a]>
        (<["to" := JArray (JString <$> Activity.To a)]>
        (<["cc" := JArray (JString <$> Activity.Cc a)]>
        (<["published" := JString (Activity.Published a)]> ∅)))))))).

Definition activityOfJSON (obj : gmap string JSON) : Activity.t :=
{| Activity.Context_ := stringList obj "@context";
   Activity.ID := default "" (field_string obj "id");
   Activity.Actor := default "" (field_string obj "actor");
   Activity.Type_ := default "" (field_string obj "type");
   Activity.Object := default JNull (obj !! "object");
   Activity.To := stringList obj "to";
   Activity.Cc := stringList obj "cc";
   Activity.Published := default "" (field_string obj "published") |}.

(** Modelled from the spec: [isToMyFollower] is not among the verified
  files; the recipients contain "the inbox-URI of any current Follower". *)
Definition isToMyFollower (rs : RelayStateT) (entries : list string) : bool :=
existsb (fun entry =>
  existsb (fun f => bool_decide (entry = Follower.InboxURL f)) (Followers rs))
  entries.

(** Modelled from the spec: [isActorSubscribersOrFollowers] is not among the
  verified files; "the sender must be a known active Subscriber or
  Follower", a record being keyed by the sender's domain. *)
Definition isActorSubscribersOrFollowers (rs : RelayStateT)
  (actorID : option url.URL) : bool :=
match actorID with
| Some u =>
    existsb (fun s => bool_decide (Subscriber.Domain s = url.Host u)) (Subscribers rs)
    || existsb (fun f => bool_decide (Follower.Domain f = url.Host u)) (Followers rs)
| None => false
end.

(** Modelled from the spec: [enqueueRegisterActivity] is not among the
  verified files; "submit(job) enqueues without blocking the caller". *)
Definition enqueueRegisterActivity (inboxURL : string) (body : string)
  (rs : RelayStateT) : RelayStateT :=
with_Queue (Queue rs ++ [{| destinationInboxURL := inboxURL; payload := body |}]) rs.

(** One job per destination, all with the same payload. *)
Definition fanOut (inboxes : list string) (body : string) (rs : RelayStateT)
  : RelayStateT :=
with_Queue
  (Queue rs ++ ((fun i => {| destinationInboxURL := i; payload := body |}) <$> inboxes))
  rs.

(** Modelled from the spec: [executeRelayActivity] is not among the verified
  files; "destination set = snapshot of all active Subscribers' inbox
  URLs; payload = the original activity bytes, unmodified". *)
Definition executeRelayActivity (activity : Activity.t) (actor : Actor.t)
  (body : string) (rs : RelayStateT) : RelayStateT * option error :=
(fanOut (Subscriber.InboxURL <$> Subscribers rs) body rs, None).

(** Modelled from the spec: [executeAnnounceActivity] is not among the
  verified files; "the resolved original activity is the payload
  broadcast to all active Subscribers and Followers". *)
Definition executeAnnounceActivity (activity : Activity.t) (actor : Actor.t)
  (rs : RelayStateT) : RelayStateT :=
fanOut ((Subscriber.InboxURL <$> Subscribers rs)
        ++ (Follower.InboxURL <$> Followers rs))
       (marshal activity) rs.

(** Modelled from the spec: [GenerateReply] is not among the verified files;
  the reply builder "constructs a well-formed reply activity addressed
  back to the sender, reusing the original activity's id". *)
Definition GenerateReply (activity : Activity.t) (actor : Actor.t)
  (object : Activity.t) (activityType : string) : Activity.t :=
{| Activity.Context_ := ["https://www.w3.org/ns/activitystreams"];
   Activity.ID := Activity.ID activity;
   Activity.Actor := Actor.ID actor;
   Activity.Type_ := activityType;
   Activity.Object := activityToJSON object;
   Activity.To := [Activity.Actor activity];
   Activity.Cc := [];
   Activity.Published := "" |}.

(** The reply of the given type to [activity], queued for the sender. *)
Definition reply (activity : Activity.t) (actor : Actor.t) (activityType : string)
  (rs : RelayStateT) : RelayStateT :=
enqueueRegisterActivity (Actor.Inbox actor)
  (marshal (GenerateReply activity relayActor activity activityType)) rs.

(** Modelled from the spec: [executeRejectRequest] is not among the verified
  files; a failed Follow "causes the state machine to reply with a Reject
  activity rather than mutating state". *)
Definition executeRejectRequest (activity : Activity.t) (actor : Actor.t)
  (err : error) (rs : RelayStateT) : RelayStateT :=
reply activity actor "Reject" rs.

(** Modelled from the spec: [executeFollowing] is not among the verified
  files.  A Follow from an administratively blocked domain fails
  validation and changes nothing; one whose object is the public audience
  creates a Subscriber record, or a pending request when manual approval
  is configured; one whose object is the relay actor creates a Follower
  record; a created record is answered with an Accept.  A Follow of
  anything else fails validation. *)
Definition executeFollowing (activity : Activity.t) (actor : Actor.t)
  (rs : RelayStateT) : RelayStateT * option error :=
let domain := domainOf actor in
if bool_decide (domain ∈ BlockedDomains (Config rs)) then
  (rs, Some "this domain is blocked")
else
  match Activity.Object activity with
  | JString object =>
      if decide (object = Public) then
        if ManuallyAccept (Config rs) then
          (with_Pending
             (Pending rs ++ [{| pendingDomain := domain;
                                pendingInboxURL := Actor.Inbox actor;
                                pendingActivityID := Activity.ID activity;
                                pendingActorID := Actor.ID actor |}]) rs,
           None)
        else
          (reply activity actor "Accept"
             (with_Subscribers
                (Subscribers rs ++ [{| Subscriber.Domain := domain;
                                       Subscriber.InboxURL := Actor.Inbox actor;
                                       Subscriber.ActivityID := Activity.ID activity;
                                       Subscriber.ActorID := Actor.ID actor |}]) rs),
           None)
      else if decide (object = Actor.ID relayActor) then
        (reply activity actor "Accept"
           (with_Followers
              (Followers rs ++ [{| Follower.Domain := domain;
                                   Follower.InboxURL := Actor.Inbox actor;
                                   Follower.ActivityID := Activity.ID activity;
                                   Follower.ActorID := Actor.ID actor |}]) rs),
         None)
      else (rs, Some "follow only allowed for the relay")
  | _ => (rs, Some "follow only allowed for the relay")
  end.

(** Modelled from the spec: [DelSubscriber], [DelFollower], [SelectSubscriber]
  and [SelectFollower] are not among the verified files; a record is
  "uniquely keyed by remote domain". *)
Definition DelSubscriber (domain : string) (rs : RelayStateT) : RelayStateT :=
with_Subscribers
  (filter (fun s => Subscriber.Domain s ≠ domain) (Subscribers rs)) rs.

Definition DelFollower (domain : string) (rs : RelayStateT) : RelayStateT :=
with_Followers
  (filter (fun f => Follower.Domain f ≠ domain) (Followers rs)) rs.

Definition SelectSubscriber (rs : RelayStateT) (domain : string)
  : option Subscriber.t :=
find (fun s => bool_decide (Subscriber.Domain s = domain)) (Subscribers rs).

Definition SelectFollower (rs : RelayStateT) (domain : string)
  : option Follower.t :=
find (fun f => bool_decide (Follower.Domain f = domain)) (Followers rs).

(** Modelled from the spec: [executeUnfollowing] is not among the verified
  files; Undo(Follow) is to "delete matching record for sender's domain",
  with no reply. *)
Definition executeUnfollowing (activity : Activity.t) (actor : Actor.t)
  (rs : RelayStateT) : RelayStateT * option error :=
(DelFollower (domainOf actor) (DelSubscriber (domainOf actor) rs), None).

(** Modelled from the spec: [finalizeMutuallyFollow] is not among the
  verified files; an Accept makes the sender's pending request an active
  record, a Reject removes the sender's record unconditionally. *)
Definition finalizeMutuallyFollow (activity : Activity.t) (actor : Actor.t)
  (activityType : string) (rs : RelayStateT) : RelayStateT :=
let domain := domainOf actor in
let others := filter (fun p => pendingDomain p ≠ domain) (Pending rs) in
if decide (activityType = "Accept") then
  match find (fun p => bool_decide (pendingDomain p = domain)) (Pending rs) with
  | Some p =>
      with_Pending others
        (with_Followers
           (Followers rs ++ [{| Follower.Domain := domain;
                                Follower.InboxURL := pendingInboxURL p;
                                Follower.ActivityID := pendingActivityID p;
                                Follower.ActorID := pendingActorID p |}]) rs)
  | None => rs
  end
else
  with_Pending others (DelFollower domain (DelSubscriber domain rs)).

(** Modelled from the spec: [fetchOriginalActivityFromURL] is not among the
  verified files; the remote fetch collaborator "resolves an Announce
  object URI into an original activity + actor". *)
Definition fetchOriginalActivityFromURL (u : string) (rs : RelayStateT)
  : RelayStateT * (error + Activity.t * Actor.t) :=
(with_Fetched (Fetched rs ++ [u]) rs,
 match remote u with
 | Some r => inr r
 | None => inl "failed to fetch the original activity"
 end).

(** Modelled from the spec: [UnwrapInnerActivity] is not among the verified
  files; the object of an Undo, Accept or Reject is a "nested inner
  Activity", anything else is malformed nesting. *)
Definition UnwrapInnerActivity (activity : Activity.t) : error + Activity.t :=
match Activity.Object activity with
| JObject obj => inr (activityOfJSON obj)
| _ => inl "the object is not an activity"
end.

(** The interface filled with the helpers above, field by field. *)
Definition env : Env :=
Build_Env parseURL parseTime marshal decodeDomain relayActor
  isToMyFollower isActorSubscribersOrFollowers
  executeRelayActivity executeFollowing executeUnfollowing
  executeRejectRequest finalizeMutuallyFollow
  fetchOriginalActivityFromURL executeAnnounceActivity
  enqueueRegisterActivity UnwrapInnerActivity GenerateReply
  SelectSubscriber SelectFollower DelSubscriber DelFollower.
End Helpers.
End spec.

(** ** The vocabulary of the specification *)

(** The three addressing dialects. *)
Inductive Dialect := PublicBroadcast | RelayDirected | Unaddressed.

(** The addressing classifier as the specification words it (section 4.1):
    PublicBroadcast if [to] or [cc] contains the public-audience URI;
    RelayDirected if [to] or [cc] contains the relay actor's own ID or a
    Follower address; Unaddressed otherwise. *)
Definition classify (E : Env) (rs : RelayStateT) (activity : Activity.t) : Dialect :=
  let recipients := Activity.To activity ++ Activity.Cc activity in
  if bool_decide (Public ∈ recipients) then PublicBroadcast
  else if bool_decide (Actor.ID (RelayActor E) ∈ recipients)
          || isToMyFollower E rs (Activity.To activity)
          || isToMyFollower E rs (Activity.Cc activity)
  then RelayDirected
  else Unaddressed.

(** The world in which the switch of [handleInbox] runs: the clock was read,
    the inbox counted and the delay recorded. *)
Definition atSwitch (E : Env) (activity : Activity.t) (w : World) : World :=
  fst ((receivedAt <- time_Now ;;
        IncrementInboxCount ;;;
        recordDelayMetrics E (Some activity)
          (url_Parse E (Activity.Actor activity)) receivedAt) w).

(** The same world had [recordDelayMetrics] not been called. *)
Definition atSwitchUnmeasured (w : World) : World :=
  fst ((receivedAt <- time_Now ;; IncrementInboxCount) w).

(** The minute [GetDeliveryStats] rounds the current time to. *)
Definition currentMinute (w : World) : Z := time.Unix (now w) ÷ 60 * 60.

(** The timestamp [recordDelayMetrics] measures from, in the words of the
    specification: the activity's own [published], else the embedded
    object's. *)
Definition publishedOf (activity : Activity.t) : string :=
  if decide (Activity.Published activity ≠ "") then Activity.Published activity
  else match Activity.Object activity with
       | JObject obj => default "" (field_string obj "published")
       | _ => ""
       end.

(** The note a delay is recorded for: the object's id, or the object itself
    when it is a string, and the activity's id when that gives nothing. *)
Definition noteIDOf (activity : Activity.t) : string :=
  let objectID := match Activity.Object activity with
                  | JObject obj => default "" (field_string obj "id")
                  | JString obj => obj
                  | _ => ""
                  end in
  if decide (objectID = "") then Activity.ID activity else objectID.

(** The four activity types the traditional style relays. *)
Definition relayed (ty : string) : Prop :=
  ty = "Create" \/ ty = "Update" \/ ty = "Delete" \/ ty = "Move".

(** Two relay states with the same members, requests, queue and fetches:
    they differ in the counters at most. *)
Definition sameButCounters (rs rs' : RelayStateT) : Prop :=
  Subscribers rs' = Subscribers rs /\ Followers rs' = Followers rs
  /\ Pending rs' = Pending rs /\ Config rs' = Config rs
  /\ Queue rs' = Queue rs /\ Fetched rs' = Fetched rs.

(** The public-audience URI is among the recipients. *)
Definition toPublic (activity : Activity.t) : Prop :=
  Public ∈ Activity.To activity \/ Public ∈ Activity.Cc activity.

(** The relay's own ID or a Follower address is among the recipients. *)
Definition toRelay (E : Env) (rs : RelayStateT) (activity : Activity.t) : Prop :=
  Actor.ID (RelayActor E) ∈ Activity.To activity
  \/ Actor.ID (RelayActor E) ∈ Activity.Cc activity
  \/ isToMyFollower E rs (Activity.To activity) = true
  \/ isToMyFollower E rs (Activity.Cc activity) = true.




(** A computation that reads and writes [RelayState] only: from two worlds
    with the same [RelayState] it returns the same result and leaves the same
    [RelayState]. *)
Definition local {A} (m : M A) : Prop :=
  forall w w', RelayState w = RelayState w' ->
    snd (m w) = snd (m w') /\ RelayState (fst (m w)) = RelayState (fst (m w')).

(** ** A small relay to run the handlers on *)

Module example.
(** Stand-ins for the standard library on the values used below:
    [parseURL] reads the host of an https URL and fails on a string that
    starts with a colon; [parseTime] knows one timestamp; [marshal] prints
    the type and the id; [decodeDomain] takes the body to be the domain. *)
Definition parseURL (s : string) : option url.URL :=
  if String.prefix ":" s then None
  else if String.prefix "https://" s then
    let rest := String.substring 8 (String.length s - 8) s in
    match String.index 0 "/" rest with
    | Some k => Some {| url.Host := String.substring 0 k rest |}
    | None => Some {| url.Host := rest |}
    end
  else Some {| url.Host := "" |}.

(** 2024-01-01T00:00:00Z *)
Definition newYear : time.Time := 1704067200 * time.Second.

Definition parseTime (layout value : string) : option time.Time :=
  if decide (value = "2024-01-01T00:00:00Z") then Some newYear else None.

Definition marshal (a : Activity.t) : string :=
  Activity.Type_ a +:+ " " +:+ Activity.ID a.

Definition decodeDomain (body : string) : error + string := inr body.

Definition relayActor : Actor.t :=
  {| Actor.ID := "https://relay.example/actor";
     Actor.Inbox := "https://relay.example/inbox" |}.

Definition alice : Actor.t :=
  {| Actor.ID := "https://a.example/users/alice";
     Actor.Inbox := "https://a.example/inbox" |}.
Definition bob : Actor.t :=
  {| Actor.ID := "https://b.example/users/bob";
     Actor.Inbox := "https://b.example/inbox" |}.
Definition carol : Actor.t :=
  {| Actor.ID := "https://c.example/users/carol";
     Actor.Inbox := "https://c.example/inbox" |}.

Definition activity (id type : string) (sender : Actor.t) (object : JSON)
    (to : list string) : Activity.t :=
  {| Activity.Context_ := ["https://www.w3.org/ns/activitystreams"];
     Activity.ID := id;
     Activity.Actor := Actor.ID sender;
     Activity.Type_ := type;
     Activity.Object := object;
     Activity.To := to;
     Activity.Cc := [];
     Activity.Published := "" |}.

(** Carol's note, as her server returns it. *)
Definition note : Activity.t :=
  activity "https://c.example/notes/1/activity" "Create" carol
    (JObject {[ "id" := JString "https://c.example/notes/1";
                "published" := JString "2024-01-01T00:00:00Z" ]})
    [Public].

Definition remote (u : string) : option (Activity.t * Actor.t) :=
  if decide (u = "https://c.example/notes/1/activity") then Some (note, carol)
  else None.

Definition E : Env :=
  spec.env parseURL parseTime marshal decodeDomain relayActor remote.

(** a.example subscribes, b.example follows, bad.example is blocked; the
    clock shows one minute past the new year. *)
Definition w : World :=
  {| RelayState :=
       {| Subscribers := [{| Subscriber.Domain := "a.example";
                             Subscriber.InboxURL := "https://a.example/inbox";
                             Subscriber.ActivityID := "https://a.example/follows/1";
                             Subscriber.ActorID := "https://a.example/users/alice" |}];
          Followers := [{| Follower.Domain := "b.example";
                           Follower.InboxURL := "https://b.example/inbox";
                           Follower.ActivityID := "https://b.example/follows/7";
                           Follower.ActorID := "https://b.example/users/bob" |}];
          Pending := [];
          Config := {| BlockedDomains := ["bad.example"]; ManuallyAccept := false |};
          RedisClient := redis.empty;
          Queue := [];
          Fetched := [] |};
     redisClient := Some redis.empty;
     Clock := fun n => newYear + 60 * time.Second + Z.of_nat n;
     Ticks := 0 |}.

Definition post (body : string) : Request :=
  {| Method := "POST"; Query := ∅; RequestBody := body |}.

(** A decoder that returns the given activity and sender for any request. *)
Definition decoded (a : Activity.t) (sender : Actor.t)
    : Request -> error + Activity.t * Actor.t * string :=
  fun request => inr (a, sender, RequestBody request).



(** Bob announces Carol's note to the relay; so does Carol, who is no member. *)
Definition announce (sender : Actor.t) : Activity.t :=
  activity "https://b.example/announces/1" "Announce" sender
    (JString "https://c.example/notes/1/activity") [Actor.ID relayActor].

(** An Undo whose object is a bare string. *)
Definition malformedUndo : Activity.t :=
  activity "https://a.example/undo/1" "Undo" alice
    (JString "https://a.example/follows/1") [].

(** An Accept sent without addressing. *)
Definition strayAccept : Activity.t :=
  activity "https://b.example/accepts/1" "Accept" bob
    (spec.activityToJSON
       (activity "https://relay.example/follows/1" "Follow" relayActor
          (JString (Actor.ID bob)) []))
    [].

(** Alice likes something in public. *)
Definition publicLike : Activity.t :=
  activity "https://a.example/likes/1" "Like" alice
    (JString "https://c.example/notes/1") [Public; Actor.ID relayActor].

(** Alice's server relays Carol's note in the traditional style. *)
Definition relayedNote : Activity.t :=
  activity "https://c.example/notes/1/activity" "Create" alice
    (JObject {[ "id" := JString "https://c.example/notes/1";
                "published" := JString "2024-01-01T00:00:00Z" ]})
    [Public].
End example.


(** The key of the hash [RecordDelay] writes to at time [t] for [host]. *)
Definition hourKeyAt (t : time.Time) (host : string) : string :=
  "fdma:hour:" +:+ FormatInt (wrap64 (time.Unix t ÷ 3600 * 3600)) +:+ ":" +:+ host.

(** ** Reading the counters back *)

Definition inboxKey (bucket : Z) : string := "relay:stats:inbox:" +:+ FormatInt bucket.
Definition outboxKey (bucket : Z) : string := "relay:stats:outbox:" +:+ FormatInt bucket.

(** The counters of package [api], as [GetDeliveryStats] reads them. *)
Definition inboxCount (bucket : Z) (w : World) : Z :=
  redis.GetInt64 (inboxKey bucket) (RedisClient (RelayState w)).
Definition outboxCount (bucket : Z) (w : World) : Z :=
  redis.GetInt64 (outboxKey bucket) (RedisClient (RelayState w)).
Definition inboxTotal (w : World) : Z :=
  redis.GetInt64 "relay:stats:inbox:total" (RedisClient (RelayState w)).
Definition outboxTotal (w : World) : Z :=
  redis.GetInt64 "relay:stats:outbox:total" (RedisClient (RelayState w)).

(** The time to live set on a key of [RelayState.RedisClient], if any. *)
Definition expiry (key : string) (w : World) : option time.Duration :=
  redis.ttl (RedisClient (RelayState w)) !! key.

(** A string of decimal digits and minus signs. *)
Fixpoint numeric (s : string) : bool :=
  match s with
  | EmptyString => true
  | String c s' =>
      (bool_decide (c = "-"%char) || bool_decide (is_Some (digitValue c)))
      && numeric s'
  end.

(** ** Reading the delay metrics back *)

(** [now.Unix() / 3600 * 3600] *)
Definition hourBucket (t : time.Time) : Z := wrap64 (time.Unix t ÷ 3600 * 3600).

(** The keys [RecordDelay] uses at time [t] for [host]. *)
Definition delayKeyAt (t : time.Time) (host : string) : string :=
  "fdma:delays:" +:+ FormatInt (hourBucket t) +:+ ":" +:+ host.
Definition instancesKeyAt (t : time.Time) : string :=
  "fdma:instances:" +:+ FormatInt (hourBucket t).


(** SMEMBERS as a set: empty for a missing key. *)
Definition members (key : string) (c : redis.Client) : gset string :=
  default ∅ (redis.sets c !! key).

(** The client of package [delaymetrics] after [RecordDelay record] ran in
    [w] with the client [c]. *)
Definition recorded (record : delaymetrics.DelayRecord) (w : World)
    (c : redis.Client) : redis.Client :=
  delaymetrics.updateMinMaxScript
    (hourKeyAt (now w) (delaymetrics.InstanceHost record))
    (delaymetrics.DelaySeconds record)
    (delaymetrics.pipeline record (now w) c).
(** ** src/delaymetrics/delaymetrics.go: reading the metrics

    [getInstanceStats] and [GetDelayMetrics] compute with float64 numbers.
    The float64 operations they use are the fields of [Float64]; the code is
    embedded over any such structure.  HGETALL returns every field as text:
    a counter as its decimal digits, a stored delay as [float_text] of it. *)

Record Float64 := {
  float : Type;
  float_zero : float;
  float_of_int : Z -> float;               (* float64(n) *)
  float_parse : string -> float;           (* strconv.ParseFloat, the error dropped *)
  float_text : Z -> string;                (* the text Redis holds for a stored delay *)
  float_add : float -> float -> float;
  float_mul : float -> float -> float;
  float_div : float -> float -> float;
  float_lt : float -> float -> bool;
}.

(** [strconv.ParseInt(s, 10, 64)] with the error dropped: 0 for a string that
    is no number, the nearest 64-bit integer for one out of range. *)
Definition ParseInt (s : string) : Z :=
  let '(neg, body) :=
    match s with
    | String "-"%char s' => (true, s')
    | String "+"%char s' => (false, s')
    | _ => (false, s)
    end in
  match body with
  | EmptyString => 0
  | _ =>
      match digitsValue body 0 with
      | Some n =>
          let z := if neg : bool then - n else n in
          if z <? int64_min then int64_min
          else if int64_max <? z then int64_max
          else z
      | None => 0
      end
  end.

Module delayread.
Section Reading.
Context (F : Float64).

Record InstanceStats := {
Host : string;
Name : string;
SoftwareName : string;
SoftwareVersion : string;
AvgDelaySeconds : float F;
MinDelaySeconds : float F;
MaxDelaySeconds : float F;
SampleCount : Z;
LastUpdated : Z;
}.

Record HourlyStats := {
Timestamp : Z;
Instances : list InstanceStats;
}.

Record DelayMetricsResponse := {
ResponseLastUpdated : Z;
SourceInstance : string;
Summary : list InstanceStats;
Hourly : list HourlyStats;
}.

(** SMEMBERS returns the members of a set, and [range] the entries of a
  map, in an order that is not specified. *)
Context (SMembers : gset string -> list string).
Context (mapRange : forall A, list (string * A) -> list (string * A)).

(** [data[field]] for the result of HGETALL: the text of the field, empty
  when the field is missing. *)
Definition text (v : option redis.Val) : string :=
match v with
| Some (redis.VInt z) => FormatInt z
| Some (redis.VFloat ns) => float_text F ns
| Some (redis.VStr s) => s
| None => ""
end.

(** [getInstanceStats]; [None] is the nil result.  The error it returns
  beside is that of Redis, which is nil here. *)
Definition getInstanceStats (c : redis.Client) (hourBucket : Z) (host : string)
  : option InstanceStats :=
let hourKey := "fdma:hour:" +:+ FormatInt hourBucket +:+ ":" +:+ host in
let data := redis.hash c hourKey in
if decide (size data = 0%nat) then None
else
  let count := ParseInt (text (data !! "count")) in
  if decide (count = 0) then None
  else
    let totalDelay := float_parse F (text (data !! "total_delay")) in
    let minDelay := float_parse F (text (data !! "min_delay")) in
    let maxDelay := float_parse F (text (data !! "max_delay")) in
    let lastUpdated := ParseInt (text (data !! "last_updated")) in
    Some {| Host := text (data !! "host");
            Name := text (data !! "name");
            SoftwareName := text (data !! "software_name");
            SoftwareVersion := text (data !! "software_version");
            AvgDelaySeconds := float_div F totalDelay (float_of_int F count);
            MinDelaySeconds := minDelay;
            MaxDelaySeconds := maxDelay;
            SampleCount := count;
            LastUpdated := lastUpdated |}.

(** An entry of [summaryMap]. *)
Record SummaryEntry := {
TotalDelay : float F;
TotalCount : Z;
MinDelay : float F;
MaxDelay : float F;
EntryName : string;
Software : string;
Version : string;
EntryLastUpdated : Z;
}.

(** "Aggregate for summary": the entry of [host] after [stats] was added. *)
Definition aggregate (host : string) (stats : InstanceStats)
  (summaryMap : gmap string SummaryEntry) : gmap string SummaryEntry :=
let s := match summaryMap !! host with
         | Some s => s
         | None => {| TotalDelay := float_zero F;
                      TotalCount := 0;
                      MinDelay := MinDelaySeconds stats;
                      MaxDelay := MaxDelaySeconds stats;
                      EntryName := "";
                      Software := "";
                      Version := "";
                      EntryLastUpdated := 0 |}
         end in
<[host :=
    {| TotalDelay :=
         float_add F (TotalDelay s)
           (float_mul F (AvgDelaySeconds stats)
              (float_of_int F (SampleCount stats)));
       TotalCount := wrap64 (TotalCount s + SampleCount stats);
       MinDelay := if float_lt F (MinDelaySeconds stats) (MinDelay s)
                   then MinDelaySeconds stats else MinDelay s;
       MaxDelay := if float_lt F (MaxDelay s) (MaxDelaySeconds stats)
                   then MaxDelaySeconds stats else MaxDelay s;
       EntryName := if decide (Name stats ≠ "") then Name stats
                    else EntryName s;
       Software := if decide (SoftwareName stats ≠ "") then SoftwareName stats
                   else Software s;
       Version := if decide (SoftwareVersion stats ≠ "")
                  then SoftwareVersion stats else Version s;
       EntryLastUpdated := if EntryLastUpdated s <? LastUpdated stats
                           then LastUpdated stats
                           else EntryLastUpdated s |}]> summaryMap.

(** [for _, host := range instances { ... }] from the instances collected
  so far for the hour and the summary so far. *)
Fixpoint hostsLoop (c : redis.Client) (hourBucket : Z) (instances : list string)
  (collected : list InstanceStats) (summaryMap : gmap string SummaryEntry)
  : list InstanceStats * gmap string SummaryEntry :=
match instances with
| [] => (collected, summaryMap)
| host :: rest =>
    match getInstanceStats c hourBucket host with
    | None => hostsLoop c hourBucket rest collected summaryMap
    | Some stats =>
        hostsLoop c hourBucket rest (collected ++ [stats])
          (aggregate host stats summaryMap)
    end
end.

(** [for i := 0; i < hours; i++ { ... }] with [n] iterations left at the
  loop variable [i]. *)
Fixpoint hoursLoop (c : redis.Client) (currentHour : Z) (n : nat) (i : Z)
  (hourly : list HourlyStats) (summaryMap : gmap string SummaryEntry)
  : list HourlyStats * gmap string SummaryEntry :=
match n with
| O => (hourly, summaryMap)
| S n' =>
    let hourBucket := wrap64 (currentHour - wrap64 (i * 3600)) in
    let instancesKey := "fdma:instances:" +:+ FormatInt hourBucket in
    let instances := SMembers (members instancesKey c) in
    let '(collected, summaryMap') :=
      hostsLoop c hourBucket instances [] summaryMap in
    hoursLoop c currentHour n' (wrap64 (i + 1))
      (hourly ++ [{| Timestamp := hourBucket; Instances := collected |}])
      summaryMap'
end.

(** "Build summary": the entries with a positive count. *)
Definition buildSummary (summaryMap : gmap string SummaryEntry)
  : list InstanceStats :=
omap (fun '(host, data) =>
        if 0 <? TotalCount data then
          Some {| Host := host;
                  Name := EntryName data;
                  SoftwareName := Software data;
                  SoftwareVersion := Version data;
                  AvgDelaySeconds :=
                    float_div F (TotalDelay data)
                      (float_of_int F (TotalCount data));
                  MinDelaySeconds := MinDelay data;
                  MaxDelaySeconds := MaxDelay data;
                  SampleCount := TotalCount data;
                  LastUpdated := EntryLastUpdated data |}
        else None)
     (mapRange _ (map_to_list summaryMap)).

Definition GetDelayMetrics (hours : Z) (sourceInstance : string)
  : M DelayMetricsResponse :=
fun w =>
  match redisClient w with
  | None =>
      (now <- time_Now ;;
       ret {| ResponseLastUpdated := time.Unix now;
              SourceInstance := sourceInstance;
              Summary := [];
              Hourly := [] |}) w
  | Some c =>
      (now <- time_Now ;;
       let currentHour := wrap64 (time.Unix now ÷ 3600 * 3600) in
       let '(hourly, summaryMap) :=
         hoursLoop c currentHour (Z.to_nat hours) 0 [] ∅ in
       ret {| ResponseLastUpdated := time.Unix now;
              SourceInstance := sourceInstance;
              Summary := buildSummary summaryMap;
              Hourly := hourly |}) w
  end.

(** For the statements: the bucket of the [i]th hour back, the entry of
  [response.Hourly] for it, the count the summary holds for a host, the
  samples [getInstanceStats] reports for a host listed in an hour, and
  their sum over [n] hours from the [i]th on. *)
Definition bucketOf (currentHour i : Z) : Z :=
wrap64 (currentHour - wrap64 (i * 3600)).

Definition hourEntry (c : redis.Client) (currentHour i : Z) : HourlyStats :=
let hourBucket := bucketOf currentHour i in
{| Timestamp := hourBucket;
   Instances :=
     omap (getInstanceStats c hourBucket)
       (SMembers (members ("fdma:instances:" +:+ FormatInt hourBucket) c)) |}.

Definition total (summaryMap : gmap string SummaryEntry) (host : string) : Z :=
from_option TotalCount 0 (summaryMap !! host).

(** What the summary holds for [host] is the wrapped sum [x], and a host
  without an entry has reported nothing. *)
Definition holds (summaryMap : gmap string SummaryEntry) (host : string)
  (x : Z) : Prop :=
total summaryMap host = wrap64 x /\ (summaryMap !! host = None -> x = 0).

Definition samplesIn (c : redis.Client) (hourBucket : Z) (host : string) : Z :=
if bool_decide (host ∈ members ("fdma:instances:" +:+ FormatInt hourBucket) c)
then from_option SampleCount 0 (getInstanceStats c hourBucket host)
else 0.

Fixpoint samplesOver (c : redis.Client) (currentHour : Z) (n : nat) (i : Z)
  (host : string) : Z :=
match n with
| O => 0
| S n' => samplesIn c (bucketOf currentHour i) host
          + samplesOver c currentHour n' (i + 1) host
end.
End Reading.

Arguments Host {F} _.
Arguments Name {F} _.
Arguments SoftwareName {F} _.
Arguments SoftwareVersion {F} _.
Arguments AvgDelaySeconds {F} _.
Arguments MinDelaySeconds {F} _.
Arguments MaxDelaySeconds {F} _.
Arguments SampleCount {F} _.
Arguments LastUpdated {F} _.
Arguments Timestamp {F} _.
Arguments Instances {F} _.
Arguments ResponseLastUpdated {F} _.
Arguments SourceInstance {F} _.
Arguments Summary {F} _.
Arguments Hourly {F} _.
Arguments TotalDelay {F} _.
Arguments TotalCount {F} _.
Arguments MinDelay {F} _.
Arguments MaxDelay {F} _.
Arguments EntryName {F} _.
Arguments Software {F} _.
Arguments Version {F} _.
Arguments EntryLastUpdated {F} _.
End delayread.

(** ** Values for the examples of the delay metrics *)

Module sample.
(** A stand-in for float64 on the values used below: whole nanoseconds. *)
Definition F : Float64 :=
  {| float := Z;
     float_zero := 0;
     float_of_int := fun n => n * time.Second;
     float_parse := fun s => ParseInt s * time.Second;
     float_text := fun ns => FormatInt (ns `div` time.Second);
     float_add := Z.add;
     float_mul := fun x y => x * y `div` time.Second;
     float_div := fun x y => if decide (y = 0) then 0 else x * time.Second `div` y;
     float_lt := Z.ltb |}.

(** SMEMBERS and [range] in the order the set and the map list them. *)
Definition SMembers (X : gset string) : list string := elements X.
Definition mapRange (A : Type) (l : list (string * A)) : list (string * A) := l.

(** A note of a.example that took one minute to arrive. *)
Definition delay : delaymetrics.DelayRecord :=
  {| delaymetrics.NoteID := "https://a.example/notes/1";
     delaymetrics.CreatedAt := example.newYear;
     delaymetrics.ReceivedAt := example.newYear + 60 * time.Second;
     delaymetrics.DelaySeconds := 60 * time.Second;
     delaymetrics.InstanceHost := "a.example";
     delaymetrics.InstanceName := "A";
     delaymetrics.SoftwareName := "";
     delaymetrics.SoftwareVersion := "" |}.
End sample.

(** * Properties *)

(** ** Integers and time *)

Lemma wrap64_id (z : Z) : int64_min <= z <= int64_max -> wrap64 z = z.
Proof.
  unfold wrap64, int64_min, int64_max. intros H.
  rewrite Z.mod_small; lia.
Qed.

Lemma quot60_bounds (z : Z) :
  Z.abs (z ÷ 60 * 60) <= Z.abs z /\ z - 59 <= z ÷ 60 * 60 <= z + 59.
Proof. Z.to_euclidean_division_equations. lia. Qed.

Lemma minuteBucket_id (now : time.Time) :
  int64_min <= time.Unix now <= int64_max ->
  minuteBucket now = time.Unix now ÷ 60 * 60.
Proof.
  intros H. unfold minuteBucket. apply wrap64_id.
  pose proof (quot60_bounds (time.Unix now)).
  unfold int64_min, int64_max in *. lia.
Qed.

(** ** The history of [GetDeliveryStats] *)

Lemma historyLoop_spec (c : redis.Client) (cb : Z) (n : nat) (acc : list DeliveryStats) :
  historyLoop c cb n acc
  = acc ++ ((fun k => historyEntry c cb (Z.of_nat k)) <$> reverse (seq 0 n)).
Proof.
  revert acc. induction n as [|n IH]; intros acc.
  - simpl. by rewrite app_nil_r.
  - cbn [historyLoop]. rewrite IH, seq_S, reverse_app. simpl.
    by rewrite <- app_assoc.
Qed.

Lemma historyLoop_length (c : redis.Client) (cb : Z) (n : nat) :
  length (historyLoop c cb n []) = n.
Proof.
  rewrite historyLoop_spec. simpl.
  by rewrite length_fmap, length_reverse, length_seq.
Qed.

Lemma historyLoop_lookup (c : redis.Client) (cb : Z) (n i : nat) :
  (i < n)%nat ->
  historyLoop c cb n [] !! i = Some (historyEntry c cb (Z.of_nat (n - 1 - i))).
Proof.
  intros Hi. rewrite historyLoop_spec. simpl.
  rewrite list_lookup_fmap, reverse_lookup by (rewrite length_seq; lia).
  rewrite length_seq, lookup_seq_lt by lia. simpl.
  do 3 f_equal. lia.
Qed.

Lemma historyEntry_Timestamp (c : redis.Client) (cb i : Z) :
  int64_min + 86400 <= cb <= int64_max ->
  0 <= i < 1440 ->
  Timestamp (historyEntry c cb i) = cb - i * 60.
Proof.
  intros Hcb Hi. unfold historyEntry. simpl.
  unfold int64_min, int64_max in *.
  rewrite (wrap64_id (i * 60)) by (unfold int64_min, int64_max; lia).
  apply wrap64_id. unfold int64_min, int64_max. lia.
Qed.

(** The [hours] parameter always lies in the range 1 to 24. *)
Lemma hoursParam_range (request : Request) : 1 <= hoursParam request <= 24.
Proof.
  unfold hoursParam. case_decide; [|lia].
  destruct (Atoi _) as [h|]; [|lia].
  destruct (Z.ltb_spec 0 h), (Z.leb_spec h 24); simpl; lia.
Qed.

Lemma GetDeliveryStats_History (hours : Z) (w : World) :
  1 <= hours <= 24 ->
  int64_min + 86400 <= time.Unix (now w) <= int64_max ->
  let history := History (snd (GetDeliveryStats hours w)) in
  length history = Z.to_nat (hours * 60)
  /\ forall i : nat, (i < Z.to_nat (hours * 60))%nat ->
       Timestamp <$> history !! i
       = Some (currentMinute w - (hours * 60 - 1 - Z.of_nat i) * 60).
Proof.
  intros Hh Hnow. unfold GetDeliveryStats, bind, time_Now. simpl.
  fold (now w). rewrite minuteBucket_id by (unfold int64_min in *; lia).
  rewrite (wrap64_id (hours * 60)) by (unfold int64_min, int64_max; lia).
  split; [apply historyLoop_length|].
  intros i Hi. rewrite historyLoop_lookup by done.
  cbv [fmap option_fmap option_map].
  rewrite historyEntry_Timestamp.
  - unfold currentMinute. do 2 f_equal. lia.
  - pose proof (quot60_bounds (time.Unix (now w))).
    unfold int64_min, int64_max in *. lia.
  - lia.
Qed.

(** C10.  The delivery-stats endpoint reads [hours] as a number from 1 to 24
    and falls back to 1 when the parameter is missing, is not an integer, is
    not positive or exceeds 24.  The history [GetDeliveryStats] then returns
    has exactly [hours * 60] entries; their timestamps are 60 seconds apart,
    strictly ascending, and the last one is the current minute.  A GET
    request is answered with these statistics. *)
Theorem delivery_stats_history (request : Request) (w : World) :
  int64_min + 86400 <= time.Unix (now w) <= int64_max ->
  let hoursStr := Query_Get request "hours" in
  let hours := hoursParam request in
  let stats := snd (GetDeliveryStats hours w) in
  (* the sanitised parameter *)
  1 <= hours <= 24
  /\ (hoursStr = "" -> hours = 1)
  /\ (Atoi hoursStr = None -> hours = 1)
  /\ (forall h, Atoi hoursStr = Some h -> h <= 0 \/ 24 < h -> hours = 1)
  /\ (forall h, hoursStr <> "" -> Atoi hoursStr = Some h -> 1 <= h <= 24 -> hours = h)
  (* the history of GetDeliveryStats(hours) *)
  /\ Z.of_nat (length (History stats)) = hours * 60
  /\ (forall (i : nat) x y,
        History stats !! i = Some x -> History stats !! S i = Some y ->
        Timestamp y = Timestamp x + 60)
  /\ (forall (i j : nat) x y, (i < j)%nat ->
        History stats !! i = Some x -> History stats !! j = Some y ->
        Timestamp x < Timestamp y)
  /\ Timestamp <$> last (History stats) = Some (currentMinute w)
  (* the response *)
  /\ (Method request = "GET" ->
      snd (handleDeliveryStats request w)
      = {| Status := 200;
           Header := [("Access-Control-Allow-Origin", "*");
                      ("Content-Type", "application/json")];
           ResponseBody := BodyStats stats |}).
Proof.
  intros Hnow hoursStr hours stats.
  pose proof (hoursParam_range request) as Hrange. fold hours in Hrange.
  split; [done|].
  split. { intros He. unfold hours, hoursParam. fold hoursStr. by rewrite He, decide_False by auto. }
  split. { intros He. unfold hours, hoursParam. fold hoursStr. rewrite He. by case_decide. }
  split. { intros h He Hh. unfold hours, hoursParam. fold hoursStr. rewrite He.
           case_decide; [|done].
           destruct (Z.ltb_spec 0 h), (Z.leb_spec h 24); simpl; lia. }
  split. { intros h Hne He Hh. unfold hours, hoursParam. fold hoursStr. rewrite He.
           rewrite decide_True by done.
           destruct (Z.ltb_spec 0 h), (Z.leb_spec h 24); simpl; lia. }
  destruct (GetDeliveryStats_History hours w Hrange Hnow) as [Hlen Hts].
  fold stats in Hlen, Hts.
  split; [rewrite Hlen; lia|].
  assert (Hat : forall (i : nat) x, History stats !! i = Some x ->
            Timestamp x = currentMinute w - (hours * 60 - 1 - Z.of_nat i) * 60).
  { intros i x Hx. pose proof (lookup_lt_Some _ _ _ Hx) as Hi.
    rewrite Hlen in Hi. specialize (Hts i Hi). rewrite Hx in Hts. simpl in Hts.
    by injection Hts. }
  split. { intros i x y Hx Hy. rewrite (Hat _ _ Hx), (Hat _ _ Hy). lia. }
  split. { intros i j x y Hij Hx Hy. rewrite (Hat _ _ Hx), (Hat _ _ Hy). lia. }
  split.
  { rewrite last_lookup, Hlen.
    replace (Nat.pred (Z.to_nat (hours * 60))) with (Z.to_nat (hours * 60) - 1)%nat by lia.
    rewrite Hts by lia. f_equal. lia. }
  intros HGET. unfold handleDeliveryStats.
  rewrite decide_False by (intros H; by apply H).
  fold hours. unfold bind, ret. subst stats.
  by destruct (GetDeliveryStats hours w).
Qed.

(** ** The inbox handler: how a request reaches the switch *)

Lemma handleInbox_other_method E request dec w :
  Method request ≠ "POST" ->
  handleInbox E request dec w = (w, respond 405 BodyNil).
Proof. intros H. unfold handleInbox. by rewrite decide_False. Qed.

Lemma handleInbox_undecoded E request dec w e :
  Method request = "POST" -> dec request = inl e ->
  handleInbox E request dec w = (atSwitchUnmeasured w, respond 400 BodyNil).
Proof.
  intros HP Hd. unfold handleInbox, atSwitchUnmeasured.
  rewrite decide_True by done. unfold bind, time_Now.
  destruct (IncrementInboxCount (ticked w)) as [w1 []]. by rewrite Hd.
Qed.

Lemma handleInbox_decoded E request dec w activity actor body :
  Method request = "POST" -> dec request = inr (activity, actor, body) ->
  handleInbox E request dec w
  = inboxSwitch E activity actor body (url_Parse E (Activity.Actor activity))
      (atSwitch E activity w).
Proof.
  intros HP Hd. unfold handleInbox, atSwitch.
  rewrite decide_True by done. unfold bind, time_Now.
  destruct (IncrementInboxCount (ticked w)) as [w1 []]. rewrite Hd.
  by destruct (recordDelayMetrics _ _ _ _ w1) as [w2 []].
Qed.

(** Counting the inbox touches the counters only. *)
Lemma atSwitchUnmeasured_frame w :
  sameButCounters (RelayState w) (RelayState (atSwitchUnmeasured w)).
Proof. by unfold sameButCounters. Qed.

(** Recording a delay leaves [RelayState] alone. *)
Lemma recordDelayMetrics_RelayState E activity actorID receivedAt w :
  RelayState (fst (recordDelayMetrics E activity actorID receivedAt w)) = RelayState w.
Proof.
  unfold recordDelayMetrics.
  destruct activity as [a|], actorID as [u|]; try done.
  destruct (delayRecord E a u receivedAt) as [record|]; [|done].
  unfold bind, delaymetrics.RecordDelay.
  destruct (redisClient w) eqn:Hc; simpl; [|done].
  unfold bind, time_Now, delaymetrics.onClient. by simpl.
Qed.

Lemma atSwitch_RelayState E activity w :
  RelayState (atSwitch E activity w) = RelayState (atSwitchUnmeasured w).
Proof.
  unfold atSwitch, atSwitchUnmeasured. unfold bind, time_Now.
  destruct (IncrementInboxCount (ticked w)) as [w1 []].
  apply recordDelayMetrics_RelayState.
Qed.

Lemma atSwitch_frame E activity w :
  sameButCounters (RelayState w) (RelayState (atSwitch E activity w)).
Proof. rewrite atSwitch_RelayState. apply atSwitchUnmeasured_frame. Qed.

(** ** The addressing classifier *)

Section Classifier.
Context (E : Env) (rs : RelayStateT) (activity : Activity.t).

Lemma classify_cases :
  (toPublic activity /\ classify E rs activity = PublicBroadcast)
  \/ (~ toPublic activity /\ toRelay E rs activity
      /\ classify E rs activity = RelayDirected)
  \/ (~ toPublic activity /\ ~ toRelay E rs activity
      /\ classify E rs activity = Unaddressed).
Proof.
  unfold classify, toPublic, toRelay.
  destruct (bool_decide (Public ∈ _)) eqn:Hp.
  { apply bool_decide_eq_true in Hp. rewrite elem_of_app in Hp. by left. }
  apply bool_decide_eq_false in Hp. rewrite elem_of_app in Hp.
  right. destruct (_ || _ || _) eqn:Hr.
  - left. rewrite !orb_true_iff, bool_decide_eq_true, elem_of_app in Hr. tauto.
  - right. rewrite !orb_false_iff, bool_decide_eq_false, elem_of_app in Hr.
    split; [done|]. split; [|done].
    destruct Hr as [[Hr1 Hr2] Hr3]. rewrite Hr2, Hr3.
    intros [?|[?|[?|?]]]; tauto || done.
Qed.

Lemma classify_PublicBroadcast :
  classify E rs activity = PublicBroadcast <-> toPublic activity.
Proof.
  destruct classify_cases as [[? ->]|[(? & ? & ->)|(? & ? & ->)]];
    split; done || tauto.
Qed.

Lemma classify_RelayDirected :
  classify E rs activity = RelayDirected
  <-> ~ toPublic activity /\ toRelay E rs activity.
Proof.
  destruct classify_cases as [[? ->]|[(? & ? & ->)|(? & ? & ->)]];
    split; done || tauto.
Qed.

Lemma classify_Unaddressed :
  classify E rs activity = Unaddressed
  <-> ~ toPublic activity /\ ~ toRelay E rs activity.
Proof.
  destruct classify_cases as [[? ->]|[(? & ? & ->)|(? & ? & ->)]];
    split; done || tauto.
Qed.
End Classifier.

(** The switch of [handleInbox] takes the branch the classifier names. *)
Lemma inboxSwitch_classify E activity actor body actorID w :
  inboxSwitch E activity actor body actorID w
  = match classify E (RelayState w) activity with
    | PublicBroadcast => inboxTraditional E activity actor body w
    | RelayDirected => inboxLitePub E activity actor actorID w
    | Unaddressed => inboxFollowOnly E activity actor w
    end.
Proof.
  unfold inboxSwitch, classify, contains, bind, getRelayState.
  destruct (bool_decide (Public ∈ Activity.To activity)) eqn:H1;
    destruct (bool_decide (Public ∈ Activity.Cc activity)) eqn:H2;
    try (apply bool_decide_eq_true in H1); try (apply bool_decide_eq_true in H2);
    try (apply bool_decide_eq_false in H1); try (apply bool_decide_eq_false in H2);
    simpl;
    try (rewrite bool_decide_true by (rewrite elem_of_app; tauto); done).
  rewrite (bool_decide_false (Public ∈ _)) by (rewrite elem_of_app; tauto).
  destruct (bool_decide (_ ∈ Activity.To activity)) eqn:H3;
    destruct (bool_decide (_ ∈ Activity.Cc activity)) eqn:H4;
    try (apply bool_decide_eq_true in H3); try (apply bool_decide_eq_true in H4);
    try (apply bool_decide_eq_false in H3); try (apply bool_decide_eq_false in H4);
    simpl;
    try (rewrite bool_decide_true by (rewrite elem_of_app; tauto); done).
  rewrite (bool_decide_false (_ ∈ _ ++ _)) by (rewrite elem_of_app; tauto).
  simpl. by destruct (_ || _).
Qed.

(** C1.  The inbox handler sends every decoded activity down exactly one of
    three branches, chosen by the first match of a fixed order: the
    Public-Broadcast branch whenever [to] or [cc] contains the
    public-audience URI, whatever else they contain; otherwise the
    Relay-Directed branch when [to] or [cc] contains the relay actor's ID or
    a Follower address; otherwise the Unaddressed branch. *)
Theorem inbox_dialect_first_match E request dec w activity actor body :
  Method request = "POST" ->
  dec request = inr (activity, actor, body) ->
  let w1 := atSwitch E activity w in
  let actorID := url_Parse E (Activity.Actor activity) in
  let dialect := classify E (RelayState w1) activity in
  handleInbox E request dec w
  = match dialect with
    | PublicBroadcast => inboxTraditional E activity actor body w1
    | RelayDirected => inboxLitePub E activity actor actorID w1
    | Unaddressed => inboxFollowOnly E activity actor w1
    end
  /\ (dialect = PublicBroadcast <-> toPublic activity)
  /\ (dialect = RelayDirected
      <-> ~ toPublic activity /\ toRelay E (RelayState w1) activity)
  /\ (dialect = Unaddressed
      <-> ~ toPublic activity /\ ~ toRelay E (RelayState w1) activity).
Proof.
  intros HP Hd w1 actorID dialect.
  split. { rewrite (handleInbox_decoded _ _ _ _ _ _ _ HP Hd). apply inboxSwitch_classify. }
  split; [apply classify_PublicBroadcast|].
  split; [apply classify_RelayDirected|apply classify_Unaddressed].
Qed.

(** ** The branches of the switch *)

(** Settle the comparisons of activity types the goal decides. *)
Ltac types :=
  repeat match goal with
         | H : _ \/ _ |- _ => destruct H
         | H : _ /\ _ |- _ => destruct H
         | H : Activity.Type_ _ = _ |- _ => rewrite H in *
         end;
  repeat case_decide; simplify_eq; try done;
  try match goal with H : relayed _ |- _ => unfold relayed in H end;
  try (exfalso; unfold relayed in *; intuition congruence).

(** C4.  An Undo, Accept or Reject whose inner activity cannot be unwrapped
    is answered with 202 and changes no membership: the handler calls none
    of its helpers, and the relay's state is what it was when the request
    arrived, the inbox counter apart. *)
Theorem unwrap_failure_is_acknowledged E request dec w activity actor body e :
  Method request = "POST" ->
  dec request = inr (activity, actor, body) ->
  Activity.Type_ activity = "Undo" \/ Activity.Type_ activity = "Accept"
    \/ Activity.Type_ activity = "Reject" ->
  UnwrapInnerActivity E activity = inl e ->
  handleInbox E request dec w = (atSwitch E activity w, respond 202 BodyNil)
  /\ sameButCounters (RelayState w) (RelayState (atSwitch E activity w)).
Proof.
  intros HP Hd HT Hu. split; [|apply atSwitch_frame].
  rewrite (handleInbox_decoded _ _ _ _ _ _ _ HP Hd), inboxSwitch_classify.
  destruct (classify _ _ _);
    unfold inboxTraditional, inboxLitePub, inboxFollowOnly; cbv zeta;
    types; rewrite ?Hu; done.
Qed.

(** C6.  In the Public-Broadcast dialect the fan-out helper runs for the
    types Create, Update, Delete and Move only, and is handed the bytes the
    decoder returned, unchanged; every other type leaves the relay as it was
    and is answered with 202. *)
Theorem public_broadcast_fanout E request dec w activity actor body :
  Method request = "POST" ->
  dec request = inr (activity, actor, body) ->
  let w1 := atSwitch E activity w in
  classify E (RelayState w1) activity = PublicBroadcast ->
  (relayed (Activity.Type_ activity) ->
     let (rs, err) := executeRelayActivity E activity actor body (RelayState w1) in
     handleInbox E request dec w
     = (setRelayState rs w1,
        match err with
        | Some err => respond 401 (BodyText err)
        | None => respond 202 BodyNil
        end))
  /\ (~ relayed (Activity.Type_ activity) ->
      handleInbox E request dec w = (w1, respond 202 BodyNil)).
Proof.
  intros HP Hd w1 Hc.
  rewrite (handleInbox_decoded _ _ _ _ _ _ _ HP Hd), inboxSwitch_classify.
  fold w1. rewrite Hc. unfold inboxTraditional. cbv zeta.
  fold (relayed (Activity.Type_ activity)).
  split; intros HT.
  - rewrite decide_True by done. unfold bind, onRelayState, ret.
    destruct (executeRelayActivity _ _ _ _ _) as [rs [err|]]; done.
  - by rewrite decide_False.
Qed.

(** C7.  Accept(Follow) and Reject(Follow) are finalised in the
    Relay-Directed dialect only: elsewhere an Accept or a Reject is answered
    with 202 and changes nothing.  In the Unaddressed dialect nothing but a
    Follow and an Undo of a Follow reaches a helper. *)
Theorem finalisation_only_relay_directed E request dec w activity actor body :
  Method request = "POST" ->
  dec request = inr (activity, actor, body) ->
  let w1 := atSwitch E activity w in
  let dialect := classify E (RelayState w1) activity in
  let ty := Activity.Type_ activity in
  let undoesFollow := ty = "Undo" /\ exists inner,
        UnwrapInnerActivity E activity = inr inner
        /\ Activity.Type_ inner = "Follow" in
  (ty = "Accept" \/ ty = "Reject" ->
     (dialect = RelayDirected ->
        forall inner, UnwrapInnerActivity E activity = inr inner ->
        (Activity.Type_ inner = "Follow" ->
           handleInbox E request dec w
           = (setRelayState
                (finalizeMutuallyFollow E inner actor ty (RelayState w1)) w1,
              respond 202 BodyNil))
        /\ (Activity.Type_ inner <> "Follow" ->
            handleInbox E request dec w = (w1, respond 202 BodyNil)))
     /\ (dialect <> RelayDirected ->
         handleInbox E request dec w = (w1, respond 202 BodyNil)))
  /\ (dialect = Unaddressed -> ty <> "Follow" -> ~ undoesFollow ->
      handleInbox E request dec w = (w1, respond 202 BodyNil)).
Proof.
  intros HP Hd w1 dialect ty undoesFollow.
  rewrite (handleInbox_decoded _ _ _ _ _ _ _ HP Hd), inboxSwitch_classify.
  fold w1 dialect. split; [intros HT; split|].
  - intros -> inner Hu. unfold inboxLitePub. cbv zeta. fold ty.
    split; intros Hi; destruct HT as [HT|HT]; rewrite HT;
      repeat case_decide; simplify_eq; rewrite Hu; by case_decide.
  - intros Hne. destruct dialect; [|done|];
      unfold inboxTraditional, inboxFollowOnly; cbv zeta; fold ty;
      destruct HT as [HT|HT]; rewrite HT; repeat case_decide; simplify_eq;
      try done; exfalso; intuition congruence.
  - intros -> HnF HnU. unfold inboxFollowOnly. cbv zeta. fold ty.
    rewrite decide_False by done. case_decide as HU; [|done].
    destruct (UnwrapInnerActivity E activity) as [|inner] eqn:Hu; [done|].
    case_decide as Hi; [|done].
    exfalso. apply HnU. split; [done|]. by exists inner.
Qed.

(** ** The status of the inbox response *)



(** ** Administrative unfollow *)

(** C8.  An administrative unfollow of a Subscriber queues a Reject of a
    Follow whose object is the public-audience URI; of a Follower, a Reject
    of a Follow whose object is the relay actor's ID.  The reply is queued
    first and the record deleted next.  A domain in neither collection gets
    404, and nothing is queued or deleted. *)
Theorem admin_unfollow_replies E request w domain :
  Method request = "POST" ->
  json_Decode_domain E (RequestBody request) = inr domain ->
  domain <> "" ->
  let rs := RelayState w in
  let reject follow :=
    json_Marshal E (GenerateReply E follow (RelayActor E) follow "Reject") in
  (forall subscriber, SelectSubscriber E rs domain = Some subscriber ->
     let follow := followOf (Subscriber.ActivityID subscriber)
                     (Subscriber.ActorID subscriber) Public in
     Activity.Type_ follow = "Follow"
     /\ Activity.Object follow = JString Public
     /\ handleAdminUnfollow E request w
        = (setRelayState
             (DelSubscriber E (Subscriber.Domain subscriber)
                (enqueueRegisterActivity E (Subscriber.InboxURL subscriber)
                   (reject follow) rs)) w,
           jsonResponse 200 [("success", JBool true);
                             ("type", JString "subscriber")]))
  /\ (SelectSubscriber E rs domain = None ->
      forall follower, SelectFollower E rs domain = Some follower ->
      let follow := followOf (Follower.ActivityID follower)
                      (Follower.ActorID follower) (Actor.ID (RelayActor E)) in
      Activity.Type_ follow = "Follow"
      /\ Activity.Object follow = JString (Actor.ID (RelayActor E))
      /\ handleAdminUnfollow E request w
         = (setRelayState
              (DelFollower E (Follower.Domain follower)
                 (enqueueRegisterActivity E (Follower.InboxURL follower)
                    (reject follow) rs)) w,
            jsonResponse 200 [("success", JBool true);
                              ("type", JString "follower")]))
  /\ (SelectSubscriber E rs domain = None ->
      SelectFollower E rs domain = None ->
      handleAdminUnfollow E request w
      = (w, jsonResponse 404
              [("error", JString "Domain not found in subscribers or followers")])).
Proof.
  intros HP Hd Hne rs reject. subst rs reject.
  unfold handleAdminUnfollow.
  rewrite decide_False by (intros H; by apply H).
  rewrite Hd, decide_False by done.
  unfold bind, getRelayState, modRelayState, onRelayState, ret.
  split; [|split].
  - intros subscriber Hs. by rewrite Hs.
  - intros Hs follower Hf. by rewrite Hs, Hf.
  - intros Hs Hf. by rewrite Hs, Hf.
Qed.

(** ** Delay metrics *)

Lemma extractCreatedAt_spec activity :
  let '(createdAtStr, objectID) := extractCreatedAt activity in
  createdAtStr = publishedOf activity
  /\ (if decide (objectID = "") then Activity.ID activity else objectID)
     = noteIDOf activity.
Proof.
  unfold extractCreatedAt, publishedOf, noteIDOf.
  destruct (Activity.Object activity); repeat case_decide; simplify_eq; try done.
  all: split; [|done]; congruence.
Qed.

Lemma parseLoop_failed E fs s e t :
  parseLoop E fs s (inl e) = inr t ->
  exists layout, layout ∈ fs /\ time_Parse E layout s = Some t.
Proof.
  revert e. induction fs as [|f fs IH]; intros e; simpl; [done|].
  destruct (time_Parse E f s) as [t'|] eqn:Hp.
  - intros [= ->]. exists f. split; [left|done].
  - intros H. destruct (IH _ H) as (layout & Hin & Hl).
    exists layout. split; [by right|done].
Qed.

Lemma parseLoop_cons E f fs s last t :
  parseLoop E (f :: fs) s last = inr t ->
  exists layout, layout ∈ f :: fs /\ time_Parse E layout s = Some t.
Proof.
  change (parseLoop E (f :: fs) s last)
    with (match time_Parse E f s with
          | Some createdAt => inr createdAt
          | None => parseLoop E fs s (inl "parsing time")
          end).
  destruct (time_Parse E f s) as [t'|] eqn:Hp.
  - intros [= ->]. exists f. split; [left|done].
  - intros H. destruct (parseLoop_failed _ _ _ _ _ H) as (layout & Hin & Hl).
    exists layout. split; [by right|done].
Qed.

Lemma parseLoop_formats E s t :
  parseLoop E formats s (inr zeroTime) = inr t ->
  exists layout, layout ∈ formats /\ time_Parse E layout s = Some t.
Proof. apply parseLoop_cons. Qed.

Lemma Sub_in_range t u :
  (time.Sub t u <? 0) || (maxDelay <? time.Sub t u) = false ->
  time.Sub t u = t - u /\ 0 <= t - u <= 86400 * time.Second.
Proof.
  unfold time.Sub, maxDelay, time.Second, int64_min, int64_max.
  rewrite orb_false_iff, !Z.ltb_ge.
  destruct (Z.ltb_spec (t - u) (- 2 ^ 63)); [lia|].
  destruct (Z.ltb_spec (2 ^ 63 - 1) (t - u)); lia.
Qed.

(** The switch reads and writes [RelayState] only. *)

Lemma local_ret {A} (a : A) : local (ret a).
Proof. by intros w w' H. Qed.

Lemma local_bind {A B} (m : M A) (k : A -> M B) :
  local m -> (forall a, local (k a)) -> local (bind m k).
Proof.
  intros Hm Hk w w' H. unfold bind.
  destruct (Hm w w' H) as [Ha Hrs].
  destruct (m w) as [w1 a], (m w') as [w1' a']. simpl in *. subst a'.
  by apply Hk.
Qed.

Lemma local_onRelayState {A} (f : RelayStateT -> RelayStateT * A) :
  local (onRelayState f).
Proof.
  intros w w' H. unfold onRelayState. rewrite H.
  by destruct (f (RelayState w')).
Qed.

Lemma local_getRelayState : local getRelayState.
Proof. by intros w w' H. Qed.

Ltac local_step :=
  first [ apply local_ret
        | apply local_getRelayState
        | apply local_onRelayState
        | apply local_bind; [|intros]
        | case_decide
        | match goal with
          | |- local (match ?x with _ => _ end) => destruct x
          | |- local (if ?x then _ else _) => destruct x
          end ].

Lemma inboxSwitch_local E activity actor body actorID :
  local (inboxSwitch E activity actor body actorID).
Proof.
  unfold inboxSwitch, inboxTraditional, inboxLitePub, inboxFollowOnly, orReject,
    modRelayState.
  cbv zeta. repeat local_step.
Qed.

(** The record [recordDelayMetrics] builds, when it builds one. *)
Lemma delayRecord_Some E activity u receivedAt record :
  delayRecord E activity u receivedAt = Some record ->
  exists layout createdAt,
    publishedOf activity <> ""
    /\ layout ∈ formats
    /\ time_Parse E layout (publishedOf activity) = Some createdAt
    /\ 0 <= receivedAt - createdAt <= 86400 * time.Second
    /\ record = {| delaymetrics.NoteID := noteIDOf activity;
                   delaymetrics.CreatedAt := createdAt;
                   delaymetrics.ReceivedAt := receivedAt;
                   delaymetrics.DelaySeconds := receivedAt - createdAt;
                   delaymetrics.InstanceHost := url.Host u;
                   delaymetrics.InstanceName := "";
                   delaymetrics.SoftwareName := "";
                   delaymetrics.SoftwareVersion := "" |}.
Proof.
  unfold delayRecord.
  pose proof (extractCreatedAt_spec activity) as Hx.
  destruct (extractCreatedAt activity) as [createdAtStr objectID].
  destruct Hx as [-> Hid]. rewrite Hid. clear Hid.
  destruct (decide (publishedOf activity = "")) as [Hp|Hp]; [done|].
  destruct (parseLoop _ _ _ _) as [|createdAt] eqn:Hl; [done|].
  destruct (_ || _) eqn:Hr; [done|].
  apply Sub_in_range in Hr as [-> Hr].
  apply parseLoop_formats in Hl as (layout & Hin & Hl).
  intros [= <-]. exists layout, createdAt. repeat split; try done; lia.
Qed.

(** The note of the record is the object's id, or the object when it is a
    string, and else the activity's id. *)
Lemma delayRecord_NoteID E activity u receivedAt record :
  delayRecord E activity u receivedAt = Some record ->
  delaymetrics.NoteID record = noteIDOf activity
  /\ (forall obj id, Activity.Object activity = JObject obj ->
      field_string obj "id" = Some id -> id <> "" ->
      delaymetrics.NoteID record = id)
  /\ (forall s, Activity.Object activity = JString s -> s <> "" ->
      delaymetrics.NoteID record = s)
  /\ (match Activity.Object activity with
      | JObject obj => default "" (field_string obj "id") = ""
      | JString s => s = ""
      | _ => True
      end -> delaymetrics.NoteID record = Activity.ID activity).
Proof.
  intros H. apply delayRecord_Some in H as (layout & createdAt & _ & _ & _ & _ & ->).
  cbn [delaymetrics.NoteID]. unfold noteIDOf.
  split; [done|].
  split. { intros obj id Ho Hid Hne. rewrite Ho, Hid. simpl. by rewrite decide_False. }
  split. { intros s Ho Hne. rewrite Ho. by rewrite decide_False. }
  intros H. destruct (Activity.Object activity); try done; by rewrite decide_True.
Qed.

Lemma recordDelayMetrics_written E activity actorID receivedAt w :
  let w' := fst (recordDelayMetrics E (Some activity) actorID receivedAt w) in
  w' <> w ->
  exists u layout createdAt record,
    actorID = Some u
    /\ publishedOf activity <> ""
    /\ layout ∈ formats
    /\ time_Parse E layout (publishedOf activity) = Some createdAt
    /\ 0 <= receivedAt - createdAt <= 86400 * time.Second
    /\ delayRecord E activity u receivedAt = Some record
    /\ record = {| delaymetrics.NoteID := noteIDOf activity;
                   delaymetrics.CreatedAt := createdAt;
                   delaymetrics.ReceivedAt := receivedAt;
                   delaymetrics.DelaySeconds := receivedAt - createdAt;
                   delaymetrics.InstanceHost := url.Host u;
                   delaymetrics.InstanceName := "";
                   delaymetrics.SoftwareName := "";
                   delaymetrics.SoftwareVersion := "" |}
    /\ w' = fst (delaymetrics.RecordDelay record w).
Proof.
  unfold recordDelayMetrics. destruct actorID as [u|]; [|done].
  destruct (delayRecord E activity u receivedAt) as [record|] eqn:Hrec; [|done].
  destruct (delayRecord_Some _ _ _ _ _ Hrec)
    as (layout & createdAt & Hp & Hin & Hl & Hd & Hr).
  intros Hw. exists u, layout, createdAt, record. repeat split; try done; try lia.
  unfold bind. by destruct (delaymetrics.RecordDelay _ w).
Qed.

Lemma atSwitch_recordDelayMetrics E activity w :
  atSwitch E activity w
  = fst (recordDelayMetrics E (Some activity)
           (url_Parse E (Activity.Actor activity)) (now w) (atSwitchUnmeasured w)).
Proof.
  unfold atSwitch, atSwitchUnmeasured, bind, time_Now.
  by destruct (IncrementInboxCount (ticked w)) as [w1 []].
Qed.

(** C9.  A delay record is written only when the activity's sender parses,
    a published timestamp is present, it parses in one of the four accepted
    layouts, and the time from publication to receipt is between 0 and 86400
    seconds; the record written is the one [recordDelayMetrics] builds; the
    activity's own published field comes before the object's; the note of
    the record built is the object's id, or the object when it is a string,
    and else the activity's id.  Whatever [recordDelayMetrics] does, the
    response and the relay's state are those of a run without it. *)
Theorem delay_recorded_only_when E request dec w activity actor body :
  Method request = "POST" ->
  dec request = inr (activity, actor, body) ->
  let actorID := url_Parse E (Activity.Actor activity) in
  let receivedAt := now w in
  let unmeasured := atSwitchUnmeasured w in
  let measured := atSwitch E activity w in
  (* a record is written only when ... *)
  (redisClient measured <> redisClient unmeasured ->
     exists u layout createdAt record,
       actorID = Some u
       /\ publishedOf activity <> ""
       /\ layout ∈ formats
       /\ time_Parse E layout (publishedOf activity) = Some createdAt
       /\ 0 <= receivedAt - createdAt <= 86400 * time.Second
       /\ delayRecord E activity u receivedAt = Some record
       /\ record = {| delaymetrics.NoteID := noteIDOf activity;
                      delaymetrics.CreatedAt := createdAt;
                      delaymetrics.ReceivedAt := receivedAt;
                      delaymetrics.DelaySeconds := receivedAt - createdAt;
                      delaymetrics.InstanceHost := url.Host u;
                      delaymetrics.InstanceName := "";
                      delaymetrics.SoftwareName := "";
                      delaymetrics.SoftwareVersion := "" |}
       /\ measured = fst (delaymetrics.RecordDelay record unmeasured))
  (* the activity's own timestamp first *)
  /\ (Activity.Published activity <> "" ->
      publishedOf activity = Activity.Published activity)
  /\ (Activity.Published activity = "" ->
      forall obj, Activity.Object activity = JObject obj ->
      publishedOf activity = default "" (field_string obj "published"))
  (* the note of the record built *)
  /\ (forall u record, delayRecord E activity u receivedAt = Some record ->
      delaymetrics.NoteID record = noteIDOf activity
      /\ (forall obj id, Activity.Object activity = JObject obj ->
          field_string obj "id" = Some id -> id <> "" ->
          delaymetrics.NoteID record = id)
      /\ (forall s, Activity.Object activity = JString s -> s <> "" ->
          delaymetrics.NoteID record = s)
      /\ (match Activity.Object activity with
          | JObject obj => default "" (field_string obj "id") = ""
          | JString s => s = ""
          | _ => True
          end -> delaymetrics.NoteID record = Activity.ID activity))
  (* the response is unaffected *)
  /\ snd (handleInbox E request dec w)
     = snd (inboxSwitch E activity actor body actorID unmeasured)
  /\ RelayState (fst (handleInbox E request dec w))
     = RelayState (fst (inboxSwitch E activity actor body actorID unmeasured)).
Proof.
  intros HP Hd actorID receivedAt unmeasured measured.
  split.
  { intros Hne. subst measured. rewrite atSwitch_recordDelayMetrics in *.
    apply recordDelayMetrics_written. intros Heq. apply Hne.
    fold actorID receivedAt unmeasured in Heq. fold actorID receivedAt unmeasured.
    by rewrite Heq. }
  split. { intros H. unfold publishedOf. by rewrite decide_True. }
  split. { intros H obj Ho. unfold publishedOf.
           rewrite decide_False, Ho; [done|]. intros Hn. by apply Hn. }
  split. { intros u record. apply delayRecord_NoteID. }
  rewrite (handleInbox_decoded _ _ _ _ _ _ _ HP Hd).
  apply inboxSwitch_local. apply atSwitch_RelayState.
Qed.

(** ** Announce and Follow, with the helpers of the specification *)

(** What the handler does with a Relay-Directed Announce, whatever the
    helpers are. *)
Lemma inbox_announce E request dec w activity actor body :
  Method request = "POST" ->
  dec request = inr (activity, actor, body) ->
  let w1 := atSwitch E activity w in
  let rs := RelayState w1 in
  classify E rs activity = RelayDirected ->
  Activity.Type_ activity = "Announce" ->
  handleInbox E request dec w
  = if isActorSubscribersOrFollowers E rs (url_Parse E (Activity.Actor activity))
    then match Activity.Object activity with
         | JString u =>
             let (rs2, fetched) := fetchOriginalActivityFromURL E u rs in
             match fetched with
             | inl err => (setRelayState rs2 w1, respond 400 (BodyText err))
             | inr (origActivity, origActor) =>
                 (setRelayState
                    (executeAnnounceActivity E origActivity origActor rs2) w1,
                  respond 202 BodyNil)
             end
         | _ => (w1, respond 202 BodyNil)
         end
    else (w1, respond 401
                (BodyText "to use the relay service, please follow in advance")).
Proof.
  intros HP Hd w1 rs Hc HT.
  rewrite (handleInbox_decoded _ _ _ _ _ _ _ HP Hd), inboxSwitch_classify.
  fold w1 rs. rewrite Hc. unfold inboxLitePub. cbv zeta. rewrite HT.
  repeat case_decide; simplify_eq.
  unfold bind, getRelayState, onRelayState, modRelayState, ret. fold rs.
  destruct (isActorSubscribersOrFollowers _ _ _); simpl; [|done].
  destruct (Activity.Object activity); try done.
  destruct (fetchOriginalActivityFromURL _ _ _) as [rs2 [err|[o a]]]; done.
Qed.


Section Specified.
Context (parseURL : string -> option url.URL).
Context (parseTime : string -> string -> option time.Time).
Context (marshal : Activity.t -> string).
Context (decodeDomain : string -> error + string).
Context (relayActor : Actor.t).
Context (remote : string -> option (Activity.t * Actor.t)).

Let E := spec.env parseURL parseTime marshal decodeDomain relayActor remote.

Lemma spec_member_frame rs rs' actorID :
  sameButCounters rs rs' ->
  spec.isActorSubscribersOrFollowers rs' actorID
  = spec.isActorSubscribersOrFollowers rs actorID.
Proof.
  intros (Hs & Hf & _). unfold spec.isActorSubscribersOrFollowers.
  by rewrite Hs, Hf.
Qed.



(** A blocked sender fails validation. *)
Lemma spec_executeFollowing_blocked activity actor rs :
  spec.domainOf parseURL actor ∈ BlockedDomains (Config rs) ->
  snd (spec.executeFollowing parseURL marshal relayActor activity actor rs)
  = Some "this domain is blocked".
Proof.
  intros H. unfold spec.executeFollowing. by rewrite bool_decide_true.
Qed.

(** C3.  A Relay-Directed Announce from an actor who is neither Subscriber
    nor Follower queues no delivery job, fetches nothing and gets 401.
    From a member, with a bare URI as object, exactly one fetch is made,
    in a state where nothing is queued yet; when it resolves, the resolved
    activity (not the Announce) is queued for the inbox of every
    Subscriber and Follower and the answer is 202; when it does not,
    nothing is queued and the answer is 400. *)
Theorem announce_relay_directed request dec w activity actor body :
  Method request = "POST" ->
  dec request = inr (activity, actor, body) ->
  classify E (RelayState (atSwitch E activity w)) activity = RelayDirected ->
  Activity.Type_ activity = "Announce" ->
  let rs0 := RelayState w in
  let rs1 := RelayState (atSwitch E activity w) in
  let rs' := RelayState (fst (handleInbox E request dec w)) in
  let r := snd (handleInbox E request dec w) in
  let member :=
    spec.isActorSubscribersOrFollowers rs0 (parseURL (Activity.Actor activity)) in
  let everyone := (Subscriber.InboxURL <$> Subscribers rs0)
                  ++ (Follower.InboxURL <$> Followers rs0) in
  (member = false ->
     Queue rs' = Queue rs0 /\ Fetched rs' = Fetched rs0
     /\ r = respond 401
              (BodyText "to use the relay service, please follow in advance"))
  /\ (member = true -> forall u, Activity.Object activity = JString u ->
      let rs2 := fst (spec.fetchOriginalActivityFromURL remote u rs1) in
      Fetched rs' = Fetched rs0 ++ [u]
      /\ Queue rs2 = Queue rs0
      /\ Subscribers rs' = Subscribers rs0 /\ Followers rs' = Followers rs0
      /\ match remote u with
         | Some (origActivity, origActor) =>
             rs' = spec.executeAnnounceActivity marshal origActivity origActor rs2
             /\ Queue rs'
                = Queue rs0
                  ++ ((fun inbox => {| destinationInboxURL := inbox;
                                       payload := marshal origActivity |})
                      <$> everyone)
             /\ r = respond 202 BodyNil
         | None =>
             Queue rs' = Queue rs0
             /\ r = respond 400 (BodyText "failed to fetch the original activity")
         end).
Proof.
  intros HP Hd Hc HT rs0 rs1 rs' r member everyone.
  pose proof (atSwitch_frame E activity w) as Hfr.
  pose proof (inbox_announce E request dec w activity actor body HP Hd Hc HT) as H.
  cbv zeta in H. subst rs' r. rewrite H. clear H.
  change (isActorSubscribersOrFollowers E) with spec.isActorSubscribersOrFollowers.
  change (url_Parse E) with parseURL.
  rewrite (spec_member_frame _ _ _ Hfr). fold rs0 rs1 member.
  destruct Hfr as (Hs & Hf & Hp & Hcf & Hq & Hft). fold rs0 rs1 in Hs, Hf, Hq, Hft.
  split.
  - intros ->. by simpl.
  - intros -> u Ho. rewrite Ho. simpl.
    destruct (remote u) as [[origActivity origActor]|]; simpl;
      rewrite ?Hs, ?Hf, ?Hq, ?Hft; done.
Qed.


(** With the fan-out of the specification a public Create, Update, Delete
  or Move queues one job per Subscriber, each with the bytes received. *)
Lemma public_broadcast_jobs request dec w activity actor body :
Method request = "POST" ->
dec request = inr (activity, actor, body) ->
classify E (RelayState (atSwitch E activity w)) activity = PublicBroadcast ->
relayed (Activity.Type_ activity) ->
let rs0 := RelayState w in
let rs' := RelayState (fst (handleInbox E request dec w)) in
Queue rs'
= Queue rs0
  ++ ((fun inbox => {| destinationInboxURL := inbox; payload := body |})
      <$> (Subscriber.InboxURL <$> Subscribers rs0))
/\ Subscribers rs' = Subscribers rs0 /\ Followers rs' = Followers rs0
/\ snd (handleInbox E request dec w) = respond 202 BodyNil.
Proof.
intros HP Hd Hc HT rs0 rs'.
pose proof (atSwitch_frame E activity w) as (Hs & Hf & _ & _ & Hq & _).
subst rs'. rewrite (handleInbox_decoded _ _ _ _ _ _ _ HP Hd), inboxSwitch_classify, Hc.
unfold inboxTraditional. cbv zeta.
fold (relayed (Activity.Type_ activity)). rewrite decide_True by done.
unfold bind, onRelayState, ret. simpl.
by rewrite Hs, Hq.
Qed.
End Specified.

(** ** Redis: reading a hash field back *)

Lemma HGet_HSet key field key' field' v c :
  redis.HGet key field (redis.HSet key' field' v c)
  = if decide (key = key' /\ field = field') then Some v
    else redis.HGet key field c.
Proof.
  unfold redis.HGet, redis.HSet, redis.with_hash, redis.hash. simpl.
  destruct (decide (key = key')) as [->|Hk].
  - rewrite lookup_insert_eq. simpl.
    destruct (decide (field = field')) as [->|Hf].
    + rewrite lookup_insert_eq. by rewrite decide_True.
    + rewrite lookup_insert_ne by done. rewrite decide_False; [done|]. tauto.
  - rewrite lookup_insert_ne by done. rewrite decide_False; [done|]. tauto.
Qed.

Lemma HGet_HSet_other key field field' v c :
  field <> field' ->
  redis.HGet key field (redis.HSet key field' v c) = redis.HGet key field c.
Proof. intros H. rewrite HGet_HSet, decide_False; [done|]. tauto. Qed.

Lemma HGet_HSetNX_other key field field' v c :
  field <> field' ->
  redis.HGet key field (redis.HSetNX key field' v c) = redis.HGet key field c.
Proof.
  intros H. unfold redis.HSetNX.
  destruct (redis.HGet key field' c); [done|]. by apply HGet_HSet_other.
Qed.




Lemma HGet_updateMinMaxScript key field new_val c :
  field <> "min_delay" -> field <> "max_delay" ->
  redis.HGet key field (delaymetrics.updateMinMaxScript key new_val c)
  = redis.HGet key field c.
Proof.
  intros Hmin Hmax. unfold delaymetrics.updateMinMaxScript.
  repeat match goal with
         | |- context [match ?x with _ => _ end] => destruct x
         end;
    rewrite ?HGet_HSet_other by done; done.
Qed.



Lemma RecordDelay_client record w c :
  redisClient w = Some c ->
  redisClient (fst (delaymetrics.RecordDelay record w))
  = Some (delaymetrics.updateMinMaxScript
            (hourKeyAt (now w) (delaymetrics.InstanceHost record))
            (delaymetrics.DelaySeconds record)
            (delaymetrics.pipeline record (now w) c)).
Proof.
  intros Hc. unfold delaymetrics.RecordDelay. rewrite Hc.
  unfold bind, time_Now, delaymetrics.onClient, ret, ticked.
  cbn [fst snd redisClient]. rewrite Hc. reflexivity.
Qed.


Lemma parseLoop_parses E fs s last :
  (exists layout, layout ∈ fs /\ is_Some (time_Parse E layout s)) ->
  exists t, parseLoop E fs s last = inr t.
Proof.
  revert last. induction fs as [|f fs IH]; intros last (layout & Hin & Hs).
  - by apply elem_of_nil in Hin.
  - simpl. destruct (time_Parse E f s) as [t|] eqn:Hp; [by exists t|].
    apply IH. apply elem_of_cons in Hin as [->|Hin].
    + rewrite Hp in Hs. by destruct Hs.
    + by exists layout.
Qed.


(** ** The theorems at work on the small relay *)

Import example.

(** A public Like that also names the relay: the public branch wins. *)
Lemma inbox_dialect_first_match_witness :
  Method (post "raw") = "POST"
  /\ decoded publicLike alice (post "raw") = inr (publicLike, alice, "raw")
  /\ Actor.ID relayActor ∈ Activity.To publicLike
  /\ handleInbox E (post "raw") (decoded publicLike alice) w
     = inboxTraditional E publicLike alice "raw" (atSwitch E publicLike w).
Proof.
  split; [reflexivity|]. split; [reflexivity|].
  split; [right; left|].
  destruct (inbox_dialect_first_match E (post "raw") (decoded publicLike alice) w
              publicLike alice "raw" eq_refl eq_refl) as (H & Hpublic & _).
  rewrite H.
  replace (classify E (RelayState (atSwitch E publicLike w)) publicLike)
    with PublicBroadcast; [reflexivity|].
  symmetry. apply Hpublic. left. left.
Defined.



(** Bob's Announce of Carol's note. *)
Lemma announce_relay_directed_witness :
  let out := handleInbox E (post "raw") (decoded (announce bob) bob) w in
  Method (post "raw") = "POST"
  /\ classify E (RelayState (atSwitch E (announce bob) w)) (announce bob)
     = RelayDirected
  /\ Activity.Type_ (announce bob) = "Announce"
  /\ Fetched (RelayState (fst out)) = ["https://c.example/notes/1/activity"]
  /\ Queue (RelayState (fst out))
     = [{| destinationInboxURL := "https://a.example/inbox";
           payload := marshal note |};
        {| destinationInboxURL := "https://b.example/inbox";
           payload := marshal note |}]
  /\ snd out = respond 202 BodyNil.
Proof.
  intros out.
  split; [reflexivity|]. split; [vm_compute; reflexivity|]. split; [reflexivity|].
  destruct (announce_relay_directed parseURL parseTime marshal decodeDomain relayActor
              remote (post "raw") (decoded (announce bob) bob) w (announce bob) bob
              "raw" eq_refl eq_refl ltac:(vm_compute; reflexivity) eq_refl)
    as (_ & H).
  destruct (H ltac:(vm_compute; reflexivity) "https://c.example/notes/1/activity"
              eq_refl) as (Hfetched & _ & _ & _ & Hresolved).
  change (remote "https://c.example/notes/1/activity") with (Some (note, carol))
    in Hresolved.
  destruct Hresolved as (_ & Hqueue & Hr).
  split; [exact Hfetched|]. split; [exact Hqueue|exact Hr].
Defined.

(** An Undo whose object is a bare string. *)
Lemma unwrap_failure_is_acknowledged_witness :
  Method (post "raw") = "POST"
  /\ Activity.Type_ malformedUndo = "Undo"
  /\ UnwrapInnerActivity E malformedUndo = inl "the object is not an activity"
  /\ handleInbox E (post "raw") (decoded malformedUndo alice) w
     = (atSwitch E malformedUndo w, respond 202 BodyNil)
  /\ sameButCounters (RelayState w) (RelayState (atSwitch E malformedUndo w)).
Proof.
  split; [reflexivity|]. split; [reflexivity|]. split; [reflexivity|].
  apply (unwrap_failure_is_acknowledged E (post "raw") (decoded malformedUndo alice)
           w malformedUndo alice "raw" "the object is not an activity"
           eq_refl eq_refl (or_introl eq_refl) eq_refl).
Defined.



(** A public Create is relayed, a public Like is not. *)
Lemma public_broadcast_fanout_witness :
  Method (post "raw") = "POST"
  /\ classify E (RelayState (atSwitch E relayedNote w)) relayedNote = PublicBroadcast
  /\ relayed (Activity.Type_ relayedNote)
  /\ Queue (RelayState (fst (handleInbox E (post "raw") (decoded relayedNote alice) w)))
     = [{| destinationInboxURL := "https://a.example/inbox"; payload := "raw" |}]
  /\ ~ relayed (Activity.Type_ publicLike)
  /\ handleInbox E (post "raw") (decoded publicLike alice) w
     = (atSwitch E publicLike w, respond 202 BodyNil).
Proof.
  assert (Hc : classify E (RelayState (atSwitch E relayedNote w)) relayedNote
               = PublicBroadcast) by (vm_compute; reflexivity).
  assert (Hc' : classify E (RelayState (atSwitch E publicLike w)) publicLike
                = PublicBroadcast) by (vm_compute; reflexivity).
  assert (Hrel : relayed (Activity.Type_ relayedNote)) by (left; reflexivity).
  assert (Hnot : ~ relayed (Activity.Type_ publicLike)).
  { intros [H|[H|[H|H]]]; discriminate H. }
  split; [reflexivity|]. split; [exact Hc|]. split; [exact Hrel|].
  split.
  - destruct (public_broadcast_fanout E (post "raw") (decoded relayedNote alice) w
                relayedNote alice "raw" eq_refl eq_refl Hc) as (H & _).
    specialize (H Hrel).
    change (executeRelayActivity E relayedNote alice "raw"
              (RelayState (atSwitch E relayedNote w)))
      with (spec.executeRelayActivity relayedNote alice "raw"
              (RelayState (atSwitch E relayedNote w))) in H.
    unfold spec.executeRelayActivity in H. rewrite H. reflexivity.
  - split; [exact Hnot|].
    destruct (public_broadcast_fanout E (post "raw") (decoded publicLike alice) w
                publicLike alice "raw" eq_refl eq_refl Hc') as (_ & H).
    exact (H Hnot).
Defined.

(** An Accept that arrives without addressing changes nothing. *)
Lemma finalisation_only_relay_directed_witness :
  Method (post "raw") = "POST"
  /\ Activity.Type_ strayAccept = "Accept"
  /\ classify E (RelayState (atSwitch E strayAccept w)) strayAccept = Unaddressed
  /\ (exists inner, UnwrapInnerActivity E strayAccept = inr inner
                    /\ Activity.Type_ inner = "Follow")
  /\ handleInbox E (post "raw") (decoded strayAccept bob) w
     = (atSwitch E strayAccept w, respond 202 BodyNil).
Proof.
  assert (Hc : classify E (RelayState (atSwitch E strayAccept w)) strayAccept
               = Unaddressed) by (vm_compute; reflexivity).
  split; [reflexivity|]. split; [reflexivity|]. split; [exact Hc|].
  split. { eexists. split; vm_compute; reflexivity. }
  destruct (finalisation_only_relay_directed E (post "raw") (decoded strayAccept bob)
              w strayAccept bob "raw" eq_refl eq_refl) as (H & _).
  destruct (H (or_introl eq_refl)) as (_ & Hother).
  apply Hother. rewrite Hc. discriminate.
Defined.

(** The administrator unfollows a Subscriber, and a domain nobody knows. *)
Lemma admin_unfollow_replies_witness :
  let out := handleAdminUnfollow E (post "a.example") w in
  Method (post "a.example") = "POST"
  /\ json_Decode_domain E (RequestBody (post "a.example")) = inr "a.example"
  /\ "a.example" <> ""
  /\ Subscribers (RelayState (fst out)) = []
  /\ Queue (RelayState (fst out))
     = [{| destinationInboxURL := "https://a.example/inbox";
           payload := marshal
                        (spec.GenerateReply
                           (followOf "https://a.example/follows/1"
                              "https://a.example/users/alice" Public)
                           relayActor
                           (followOf "https://a.example/follows/1"
                              "https://a.example/users/alice" Public)
                           "Reject") |}]
  /\ Status (snd out) = 200
  /\ handleAdminUnfollow E (post "nobody.example") w
     = (w, jsonResponse 404
             [("error", JString "Domain not found in subscribers or followers")]).
Proof.
  intros out.
  split; [reflexivity|]. split; [reflexivity|]. split; [discriminate|].
  destruct (admin_unfollow_replies E (post "a.example") w "a.example"
              eq_refl eq_refl ltac:(discriminate)) as (H & _).
  destruct (H _ eq_refl) as (_ & _ & Hout).
  subst out. rewrite Hout.
  split; [reflexivity|]. split; [reflexivity|]. split; [reflexivity|].
  destruct (admin_unfollow_replies E (post "nobody.example") w "nobody.example"
              eq_refl eq_refl ltac:(discriminate)) as (_ & _ & H404).
  apply H404; reflexivity.
Defined.

(** The statistics of the last two hours. *)
Lemma delivery_stats_history_witness :
  let request := {| Method := "GET"; Query := {[ "hours" := ["2"] ]};
                    RequestBody := "" |} in
  int64_min + 86400 <= time.Unix (now w) <= int64_max
  /\ hoursParam request = 2
  /\ exists stats,
       ResponseBody (snd (handleDeliveryStats request w)) = BodyStats stats
       /\ length (History stats) = 120%nat
       /\ Timestamp <$> last (History stats) = Some 1704067260.
Proof.
  intros request.
  assert (Hnow : int64_min + 86400 <= time.Unix (now w) <= int64_max).
  { vm_compute. split; discriminate. }
  split; [exact Hnow|]. split; [reflexivity|].
  destruct (delivery_stats_history request w Hnow)
    as (_ & _ & _ & _ & _ & Hlen & _ & _ & Hlast & Hresp).
  exists (snd (GetDeliveryStats (hoursParam request) w)).
  rewrite (Hresp eq_refl). split; [reflexivity|].
  split; [|exact Hlast].
  change (hoursParam request * 60) with 120 in Hlen. lia.
Defined.

(** Alice's relay of Carol's note, received a minute after it was
    published, is measured, under the id of the note. *)
Lemma delay_recorded_only_when_witness :
  let measured := atSwitch E relayedNote w in
  let unmeasured := atSwitchUnmeasured w in
  Method (post "raw") = "POST"
  /\ redisClient measured <> redisClient unmeasured
  /\ publishedOf relayedNote = "2024-01-01T00:00:00Z"
  /\ (exists u layout createdAt record,
        url_Parse E (Activity.Actor relayedNote) = Some u
        /\ layout ∈ formats
        /\ time_Parse E layout (publishedOf relayedNote) = Some createdAt
        /\ 0 <= now w - createdAt <= 86400 * time.Second
        /\ delayRecord E relayedNote u (now w) = Some record
        /\ delaymetrics.NoteID record = "https://c.example/notes/1"
        /\ measured = fst (delaymetrics.RecordDelay record unmeasured))
  /\ snd (handleInbox E (post "raw") (decoded relayedNote alice) w)
     = respond 202 BodyNil.
Proof.
  intros measured unmeasured.
  assert (Hne : redisClient measured <> redisClient unmeasured).
  { intros H.
    apply (f_equal (fun c => redis.HGet "fdma:hour:1704067200:a.example" "count"
                               <$> c)) in H.
    vm_compute in H. discriminate H. }
  split; [reflexivity|]. split; [exact Hne|].
  destruct (delay_recorded_only_when E (post "raw") (decoded relayedNote alice) w
              relayedNote alice "raw" eq_refl eq_refl)
    as (Honly & _ & Hpub & Hnote & Hresp & _).
  split; [exact (Hpub eq_refl _ eq_refl)|].
  split.
  - destruct (Honly Hne)
      as (u & layout & createdAt & record & Hu & _ & Hin & Hparse & Hd & Hrec & _ & Hm).
    exists u, layout, createdAt, record.
    destruct (Hnote u record Hrec) as (_ & Hid & _).
    repeat split; try assumption; try apply Hd.
    apply (Hid _ "https://c.example/notes/1" eq_refl); [reflexivity|discriminate].
  - rewrite Hresp. vm_compute. reflexivity.
Defined.

(** * Further properties *)

(** ** The keys of the counters *)

Lemma numeric_pretty_N_go x s : numeric s = true -> numeric (pretty_N_go x s) = true.
Proof.
  revert s. induction (N.lt_wf_0 x) as [x _ IH]; intros s Hs.
  destruct (decide (x = 0)%N) as [->|Hx]; [by rewrite pretty_N_go_0|].
  rewrite pretty_N_go_step by lia. apply IH; [apply N.div_lt; lia|].
  simpl. rewrite Hs, andb_true_r.
  unfold pretty_N_char. by repeat case_match.
Qed.

Lemma numeric_FormatInt z : numeric (FormatInt z) = true.
Proof.
  unfold FormatInt, pretty, pretty_Z. destruct z as [|p|p]; [done|..].
  - unfold pretty, pretty_positive, pretty, pretty_N.
    case_decide; [done|]. by apply numeric_pretty_N_go.
  - simpl. unfold pretty, pretty_positive, pretty, pretty_N.
    case_decide; [done|]. by apply numeric_pretty_N_go.
Qed.

Lemma FormatInt_not_total z : FormatInt z <> "total".
Proof.
  intros H. pose proof (numeric_FormatInt z) as Hn. by rewrite H in Hn.
Qed.

Lemma inboxKey_inj b b' : inboxKey b = inboxKey b' -> b = b'.
Proof.
  unfold inboxKey. simpl. intros H. by simplify_eq.
Qed.

Lemma outboxKey_inj b b' : outboxKey b = outboxKey b' -> b = b'.
Proof.
  unfold outboxKey. simpl. intros H. by simplify_eq.
Qed.

Lemma inboxKey_not_total b : inboxKey b <> "relay:stats:inbox:total".
Proof.
  unfold inboxKey. intros H.
  change "relay:stats:inbox:total" with ("relay:stats:inbox:" +:+ "total") in H.
  simplify_eq. by apply (FormatInt_not_total b).
Qed.

Lemma outboxKey_not_total b : outboxKey b <> "relay:stats:outbox:total".
Proof.
  unfold outboxKey. intros H.
  change "relay:stats:outbox:total" with ("relay:stats:outbox:" +:+ "total") in H.
  simplify_eq. by apply (FormatInt_not_total b).
Qed.

Lemma GetInt64_Incr key key' c :
  redis.GetInt64 key (redis.Incr key' c)
  = if decide (key = key') then redis.GetInt64 key c + 1 else redis.GetInt64 key c.
Proof.
  unfold redis.GetInt64, redis.Incr. simpl. case_decide as H.
  - subst. by rewrite lookup_insert_eq.
  - by rewrite lookup_insert_ne.
Qed.

Lemma GetInt64_Expire key key' d c :
  redis.GetInt64 key (redis.Expire key' d c) = redis.GetInt64 key c.
Proof. unfold redis.Expire. by destruct (redis.exists_key c key'). Qed.

Lemma inbox_outbox_keys b b' :
  inboxKey b <> outboxKey b' /\ inboxKey b <> "relay:stats:outbox:total"
  /\ outboxKey b <> "relay:stats:inbox:total".
Proof.
  unfold inboxKey, outboxKey.
  repeat split; intros H; apply (f_equal (String.get 12)) in H;
    lazy in H; discriminate H.
Qed.

(** ** Counting the inbox and the outbox *)

Lemma IncrementInboxCount_run w :
  IncrementInboxCount w
  = (setRelayState
       (with_RedisClient
          (redis.Incr "relay:stats:inbox:total"
             (redis.Expire (inboxKey (minuteBucket (now w))) (25 * time.Hour)
                (redis.Incr (inboxKey (minuteBucket (now w)))
                   (RedisClient (RelayState w)))))
          (RelayState w))
       (ticked w), tt).
Proof. reflexivity. Qed.

Lemma IncrementOutboxCount_run w :
  IncrementOutboxCount w
  = (setRelayState
       (with_RedisClient
          (redis.Incr "relay:stats:outbox:total"
             (redis.Expire (outboxKey (minuteBucket (now w))) (25 * time.Hour)
                (redis.Incr (outboxKey (minuteBucket (now w)))
                   (RedisClient (RelayState w)))))
          (RelayState w))
       (ticked w), tt).
Proof. reflexivity. Qed.

Lemma ttl_Expire_Incr key d c :
  redis.ttl (redis.Expire key d (redis.Incr key c)) !! key = Some d.
Proof.
  unfold redis.Expire.
  replace (redis.exists_key (redis.Incr key c) key) with true.
  - simpl. by rewrite lookup_insert_eq.
  - unfold redis.exists_key, redis.Incr. simpl.
    rewrite lookup_insert_eq. by rewrite bool_decide_true by eauto.
Qed.

Lemma inbox_increment_counts_run w :
  let w' := fst (IncrementInboxCount w) in
  let b := minuteBucket (now w) in
  inboxTotal w' = inboxTotal w + 1
  /\ inboxCount b w' = inboxCount b w + 1
  /\ (forall b', b' <> b -> inboxCount b' w' = inboxCount b' w)
  /\ (forall b', outboxCount b' w' = outboxCount b' w)
  /\ outboxTotal w' = outboxTotal w.
Proof.
  intros w' b. subst w'. rewrite IncrementInboxCount_run. fold b.
  unfold inboxTotal, inboxCount, outboxCount, outboxTotal.
  cbn [fst RelayState setRelayState RedisClient with_RedisClient].
  pose proof (inboxKey_not_total b) as Hbt.
  repeat split.
  - by rewrite GetInt64_Incr, decide_True, GetInt64_Expire, GetInt64_Incr,
      decide_False by done.
  - rewrite GetInt64_Incr, decide_False by done.
    by rewrite GetInt64_Expire, GetInt64_Incr, decide_True.
  - intros b' Hb'.
    rewrite GetInt64_Incr, decide_False by apply inboxKey_not_total.
    rewrite GetInt64_Expire, GetInt64_Incr, decide_False; [done|].
    intros H. by apply inboxKey_inj in H.
  - intros b'. destruct (inbox_outbox_keys b b') as (H1 & H2 & H3).
    destruct (inbox_outbox_keys b' b') as (_ & _ & H4).
    rewrite GetInt64_Incr, decide_False by done.
    rewrite GetInt64_Expire, GetInt64_Incr, decide_False; [done|congruence].
  - destruct (inbox_outbox_keys b b) as (H1 & H2 & H3).
    rewrite GetInt64_Incr, decide_False by done.
    rewrite GetInt64_Expire, GetInt64_Incr, decide_False; [done|congruence].
Qed.

(** [IncrementInboxCount] adds one to the total and to the counter of the
    current minute, which it gives 25 hours to live; every other inbox
    minute, every outbox counter, the members and the delivery queue stay as
    they are.  (A Redis counter stops at the 64-bit limit.) *)
Theorem inbox_increment_counts w :
  inboxTotal w < int64_max ->
  inboxCount (minuteBucket (now w)) w < int64_max ->
  let w' := fst (IncrementInboxCount w) in
  let b := minuteBucket (now w) in
  inboxTotal w' = inboxTotal w + 1
  /\ inboxCount b w' = inboxCount b w + 1
  /\ (forall b', b' <> b -> inboxCount b' w' = inboxCount b' w)
  /\ (forall b', outboxCount b' w' = outboxCount b' w)
  /\ outboxTotal w' = outboxTotal w
  /\ expiry (inboxKey b) w' = Some (25 * time.Hour)
  /\ sameButCounters (RelayState w) (RelayState w')
  /\ redisClient w' = redisClient w.
Proof.
  intros _ _ w' b.
  destruct (inbox_increment_counts_run w) as (H1 & H2 & H3 & H4 & H5).
  fold w' b in H1, H2, H3, H4, H5.
  repeat split; try done.
  subst w'. rewrite IncrementInboxCount_run. fold b. unfold expiry.
  cbn [fst RelayState setRelayState RedisClient with_RedisClient].
  change (redis.ttl (redis.Incr ?k ?c)) with (redis.ttl c).
  apply ttl_Expire_Incr.
Qed.

(** [IncrementOutboxCount] is its mirror image: one more in the outbox total
    and in the outbox counter of the current minute, nothing else. *)
Theorem outbox_increment_counts w :
  outboxTotal w < int64_max ->
  outboxCount (minuteBucket (now w)) w < int64_max ->
  let w' := fst (IncrementOutboxCount w) in
  let b := minuteBucket (now w) in
  outboxTotal w' = outboxTotal w + 1
  /\ outboxCount b w' = outboxCount b w + 1
  /\ (forall b', b' <> b -> outboxCount b' w' = outboxCount b' w)
  /\ (forall b', inboxCount b' w' = inboxCount b' w)
  /\ inboxTotal w' = inboxTotal w
  /\ expiry (outboxKey b) w' = Some (25 * time.Hour)
  /\ sameButCounters (RelayState w) (RelayState w')
  /\ redisClient w' = redisClient w.
Proof.
  intros _ _ w' b. subst w'. rewrite IncrementOutboxCount_run. fold b.
  unfold inboxTotal, inboxCount, outboxCount, outboxTotal, expiry.
  cbn [fst RelayState setRelayState RedisClient with_RedisClient].
  pose proof (outboxKey_not_total b) as Hbt.
  repeat split.
  - by rewrite GetInt64_Incr, decide_True, GetInt64_Expire, GetInt64_Incr,
      decide_False by done.
  - rewrite GetInt64_Incr, decide_False by done.
    by rewrite GetInt64_Expire, GetInt64_Incr, decide_True.
  - intros b' Hb'.
    rewrite GetInt64_Incr, decide_False by apply outboxKey_not_total.
    rewrite GetInt64_Expire, GetInt64_Incr, decide_False; [done|].
    intros H. by apply outboxKey_inj in H.
  - intros b'. destruct (inbox_outbox_keys b' b) as (H1 & H2 & H3).
    rewrite GetInt64_Incr, decide_False by done.
    rewrite GetInt64_Expire, GetInt64_Incr, decide_False; [done|congruence].
  - destruct (inbox_outbox_keys b b) as (H1 & H2 & H3).
    rewrite GetInt64_Incr, decide_False by done.
    rewrite GetInt64_Expire, GetInt64_Incr, decide_False; [done|congruence].
  - change (redis.ttl (redis.Incr ?k ?c)) with (redis.ttl c).
    apply ttl_Expire_Incr.
Qed.

(** ** What the statistics report *)





(** [handleInbox] counts every POST once, before it looks at the body: an
    undecodable POST is counted as a decoded one is, in the minute of the
    handler's second reading of the clock; a request of another method is
    not counted and changes nothing. *)
Theorem inbox_counts_every_post E request dec w :
  inboxTotal w < int64_max ->
  inboxCount (minuteBucket (now (ticked w))) w < int64_max ->
  let b := minuteBucket (now (ticked w)) in
  (Method request <> "POST" -> fst (handleInbox E request dec w) = w)
  /\ (Method request = "POST" -> forall e, dec request = inl e ->
      let w' := fst (handleInbox E request dec w) in
      inboxTotal w' = inboxTotal w + 1 /\ inboxCount b w' = inboxCount b w + 1)
  /\ (Method request = "POST" -> forall activity actor body,
      dec request = inr (activity, actor, body) ->
      let w1 := atSwitch E activity w in
      inboxTotal w1 = inboxTotal w + 1 /\ inboxCount b w1 = inboxCount b w + 1).
Proof.
  intros Ht Hb b.
  assert (Hun : inboxTotal (atSwitchUnmeasured w) = inboxTotal w + 1
                /\ inboxCount b (atSwitchUnmeasured w) = inboxCount b w + 1).
  { unfold atSwitchUnmeasured, bind, time_Now.
    destruct (inbox_increment_counts_run (ticked w)) as (Htot & Hcb & _).
    fold b in Hcb.
    destruct (IncrementInboxCount (ticked w)) as [w1 []]. simpl in *.
    by rewrite Htot, Hcb. }
  split; [|split].
  - intros HM. by rewrite handleInbox_other_method.
  - intros HP e Hd. by rewrite (handleInbox_undecoded _ _ _ _ _ HP Hd).
  - intros HP activity actor body Hd w1. subst w1.
    unfold inboxTotal, inboxCount in *. by rewrite atSwitch_RelayState.
Qed.

(** ** What [RecordDelay] keeps *)







(** ** What [RecordDelay] touches *)

Section RedisFrame.
Context (key field : string) (c : redis.Client).

Lemma strs_HSet v : redis.strs (redis.HSet key field v c) = redis.strs c.
Proof. done. Qed.
Lemma sets_HSet v : redis.sets (redis.HSet key field v c) = redis.sets c.
Proof. done. Qed.
Lemma ttl_HSet v : redis.ttl (redis.HSet key field v c) = redis.ttl c.
Proof. done. Qed.
Lemma hashes_HSet v key' :
key' <> key ->
redis.hashes (redis.HSet key field v c) !! key' = redis.hashes c !! key'.
Proof. intros H. unfold redis.HSet. simpl. by rewrite lookup_insert_ne. Qed.
Lemma hashes_HSet_is_Some v : is_Some (redis.hashes (redis.HSet key field v c) !! key).
Proof. unfold redis.HSet. simpl. rewrite lookup_insert_eq. eauto. Qed.

Lemma strs_HSetNX v : redis.strs (redis.HSetNX key field v c) = redis.strs c.
Proof. unfold redis.HSetNX. by destruct (redis.HGet _ _ _). Qed.
Lemma sets_HSetNX v : redis.sets (redis.HSetNX key field v c) = redis.sets c.
Proof. unfold redis.HSetNX. by destruct (redis.HGet _ _ _). Qed.
Lemma ttl_HSetNX v : redis.ttl (redis.HSetNX key field v c) = redis.ttl c.
Proof. unfold redis.HSetNX. by destruct (redis.HGet _ _ _). Qed.
Lemma hashes_HSetNX v key' :
key' <> key ->
redis.hashes (redis.HSetNX key field v c) !! key' = redis.hashes c !! key'.
Proof.
intros H. unfold redis.HSetNX. destruct (redis.HGet _ _ _); [done|].
by apply hashes_HSet.
Qed.

Lemma strs_setIfNonEmpty v :
redis.strs (delaymetrics.setIfNonEmpty key field v c) = redis.strs c.
Proof. unfold delaymetrics.setIfNonEmpty. by case_decide. Qed.
Lemma sets_setIfNonEmpty v :
redis.sets (delaymetrics.setIfNonEmpty key field v c) = redis.sets c.
Proof. unfold delaymetrics.setIfNonEmpty. by case_decide. Qed.
Lemma ttl_setIfNonEmpty v :
redis.ttl (delaymetrics.setIfNonEmpty key field v c) = redis.ttl c.
Proof. unfold delaymetrics.setIfNonEmpty. by case_decide. Qed.
Lemma hashes_setIfNonEmpty v key' :
key' <> key ->
redis.hashes (delaymetrics.setIfNonEmpty key field v c) !! key'
= redis.hashes c !! key'.
Proof.
intros H. unfold delaymetrics.setIfNonEmpty. case_decide; [|done].
by apply hashes_HSet.
Qed.

Lemma strs_Expire d : redis.strs (redis.Expire key d c) = redis.strs c.
Proof. unfold redis.Expire. by destruct (redis.exists_key _ _). Qed.
Lemma sets_Expire d : redis.sets (redis.Expire key d c) = redis.sets c.
Proof. unfold redis.Expire. by destruct (redis.exists_key _ _). Qed.
Lemma hashes_Expire d : redis.hashes (redis.Expire key d c) = redis.hashes c.
Proof. unfold redis.Expire. by destruct (redis.exists_key _ _). Qed.
Lemma ttl_Expire d key' :
redis.ttl (redis.Expire key d c) !! key'
= if redis.exists_key c key && bool_decide (key' = key) then Some d
  else redis.ttl c !! key'.
Proof.
unfold redis.Expire. destruct (redis.exists_key c key); simpl; [|done].
case_bool_decide as H; [subst; by rewrite lookup_insert_eq|].
by rewrite lookup_insert_ne.
Qed.

End RedisFrame.

Lemma strs_updateMinMaxScript key d c :
  redis.strs (delaymetrics.updateMinMaxScript key d c) = redis.strs c.
Proof. unfold delaymetrics.updateMinMaxScript. by repeat case_match. Qed.
Lemma sets_updateMinMaxScript key d c :
  redis.sets (delaymetrics.updateMinMaxScript key d c) = redis.sets c.
Proof. unfold delaymetrics.updateMinMaxScript. by repeat case_match. Qed.
Lemma ttl_updateMinMaxScript key d c :
  redis.ttl (delaymetrics.updateMinMaxScript key d c) = redis.ttl c.
Proof. unfold delaymetrics.updateMinMaxScript. by repeat case_match. Qed.
Lemma hashes_updateMinMaxScript key d c key' :
  key' <> key ->
  redis.hashes (delaymetrics.updateMinMaxScript key d c) !! key'
  = redis.hashes c !! key'.
Proof.
  intros H. unfold delaymetrics.updateMinMaxScript.
  repeat case_match; rewrite ?hashes_HSet by done; done.
Qed.

Lemma strs_SAdd key member c : redis.strs (redis.SAdd key member c) = redis.strs c.
Proof. done. Qed.
Lemma hashes_SAdd key member c :
  redis.hashes (redis.SAdd key member c) = redis.hashes c.
Proof. done. Qed.
Lemma ttl_SAdd key member c : redis.ttl (redis.SAdd key member c) = redis.ttl c.
Proof. done. Qed.
Lemma sets_SAdd key member c :
  redis.sets (redis.SAdd key member c)
  = <[key := {[member]} ∪ members key c]> (redis.sets c).
Proof. done. Qed.

(** Whether a key exists depends on the three stores only. *)
Lemma exists_key_ext c c' key :
  redis.strs c' !! key = redis.strs c !! key ->
  redis.hashes c' !! key = redis.hashes c !! key ->
  redis.sets c' !! key = redis.sets c !! key ->
  redis.exists_key c' key = redis.exists_key c key.
Proof. intros H1 H2 H3. unfold redis.exists_key. by rewrite H1, H2, H3. Qed.

Lemma exists_key_hash c key :
  is_Some (redis.hashes c !! key) -> redis.exists_key c key = true.
Proof.
  intros H. unfold redis.exists_key.
  rewrite (bool_decide_true (is_Some (redis.hashes c !! key))) by done.
  by rewrite orb_true_r.
Qed.

Lemma exists_key_set c key :
  is_Some (redis.sets c !! key) -> redis.exists_key c key = true.
Proof.
  intros H. unfold redis.exists_key.
  rewrite (bool_decide_true (is_Some (redis.sets c !! key))) by done.
  by rewrite orb_true_r.
Qed.

Lemma delay_keys_differ t t' host host' :
  hourKeyAt t host <> delayKeyAt t' host'
  /\ hourKeyAt t host <> instancesKeyAt t'
  /\ hourKeyAt t host <> "fdma:all_instances"
  /\ delayKeyAt t host <> instancesKeyAt t'
  /\ delayKeyAt t host <> "fdma:all_instances"
  /\ instancesKeyAt t <> "fdma:all_instances".
Proof.
  unfold hourKeyAt, delayKeyAt, instancesKeyAt.
  repeat split; intros H; apply (f_equal (String.get 5)) in H;
    lazy in H; discriminate H.
Qed.

Section Pipeline.
Context (record : delaymetrics.DelayRecord) (t : time.Time) (c : redis.Client).
Let host := delaymetrics.InstanceHost record.
Let hourKey := hourKeyAt t host.
Let delayKey := delayKeyAt t host.
Let instancesKey := instancesKeyAt t.

(** The state of the pipeline before its first EXPIRE. *)
Let hashed : redis.Client :=
redis.HSetNX hourKey "max_delay" (redis.VFloat (delaymetrics.DelaySeconds record))
  (redis.HSetNX hourKey "min_delay" (redis.VFloat (delaymetrics.DelaySeconds record))
     (delaymetrics.setIfNonEmpty hourKey "software_version"
        (delaymetrics.SoftwareVersion record)
        (delaymetrics.setIfNonEmpty hourKey "software_name"
           (delaymetrics.SoftwareName record)
           (delaymetrics.setIfNonEmpty hourKey "name"
              (delaymetrics.InstanceName record)
              (redis.HSet hourKey "last_updated" (redis.VInt (time.Unix t))
                 (redis.HSet hourKey "host" (redis.VStr host)
                    (redis.HIncrByFloat hourKey "total_delay"
                       (delaymetrics.DelaySeconds record)
                       (redis.HIncrBy hourKey "count" 1 c)))))))).

Lemma pipeline_unfold :
delaymetrics.pipeline record t c
= redis.SAdd "fdma:all_instances" host
    (redis.Expire instancesKey (25 * time.Hour)
       (redis.SAdd instancesKey host
          (redis.Expire delayKey (25 * time.Hour)
             (redis.Expire hourKey (25 * time.Hour) hashed)))).
Proof. reflexivity. Qed.

Lemma hashed_strs : redis.strs hashed = redis.strs c.
Proof.
unfold hashed, redis.HIncrByFloat, redis.HIncrBy.
by rewrite !strs_HSetNX, !strs_setIfNonEmpty, !strs_HSet.
Qed.

Lemma hashed_sets : redis.sets hashed = redis.sets c.
Proof.
unfold hashed, redis.HIncrByFloat, redis.HIncrBy.
by rewrite !sets_HSetNX, !sets_setIfNonEmpty, !sets_HSet.
Qed.

Lemma hashed_ttl : redis.ttl hashed = redis.ttl c.
Proof.
unfold hashed, redis.HIncrByFloat, redis.HIncrBy.
by rewrite !ttl_HSetNX, !ttl_setIfNonEmpty, !ttl_HSet.
Qed.

Lemma hashed_hashes key :
key <> hourKey -> redis.hashes hashed !! key = redis.hashes c !! key.
Proof.
intros H. unfold hashed, redis.HIncrByFloat, redis.HIncrBy.
by rewrite !hashes_HSetNX, !hashes_setIfNonEmpty, !hashes_HSet.
Qed.

Lemma hashed_exists : redis.exists_key hashed hourKey = true.
Proof.
apply exists_key_hash. unfold hashed.
assert (Hnx : forall f v c0, is_Some (redis.hashes c0 !! hourKey) ->
          is_Some (redis.hashes (redis.HSetNX hourKey f v c0) !! hourKey)).
{ intros f v c0 H. unfold redis.HSetNX. destruct (redis.HGet _ _ _); [done|].
  apply hashes_HSet_is_Some. }
assert (Hne : forall f v c0, is_Some (redis.hashes c0 !! hourKey) ->
          is_Some (redis.hashes (delaymetrics.setIfNonEmpty hourKey f v c0)
                     !! hourKey)).
{ intros f v c0 H. unfold delaymetrics.setIfNonEmpty. case_decide; [|done].
  apply hashes_HSet_is_Some. }
do 2 apply Hnx. do 3 apply Hne. apply hashes_HSet_is_Some.
Qed.

Lemma pipeline_strs : redis.strs (delaymetrics.pipeline record t c) = redis.strs c.
Proof.
rewrite pipeline_unfold.
by rewrite strs_SAdd, strs_Expire, strs_SAdd, !strs_Expire, hashed_strs.
Qed.

Lemma pipeline_hashes key :
key <> hourKey ->
redis.hashes (delaymetrics.pipeline record t c) !! key = redis.hashes c !! key.
Proof.
intros H. rewrite pipeline_unfold.
rewrite hashes_SAdd, hashes_Expire, hashes_SAdd, !hashes_Expire.
by apply hashed_hashes.
Qed.

Lemma pipeline_sets :
redis.sets (delaymetrics.pipeline record t c)
= <["fdma:all_instances" :=
      {[host]} ∪ members "fdma:all_instances" c]>
    (<[instancesKey := {[host]} ∪ members instancesKey c]> (redis.sets c)).
Proof.
rewrite pipeline_unfold.
rewrite sets_SAdd, sets_Expire, sets_SAdd, !sets_Expire, hashed_sets.
unfold members.
rewrite sets_Expire, sets_SAdd, !sets_Expire, hashed_sets.
rewrite lookup_insert_ne; [done|].
destruct (delay_keys_differ t t host host) as (_ & _ & _ & _ & _ & H).
fold instancesKey in H. congruence.
Qed.

Lemma pipeline_ttl key :
redis.ttl (delaymetrics.pipeline record t c) !! key
= if bool_decide (key = instancesKey) then Some (25 * time.Hour)
  else if redis.exists_key c delayKey && bool_decide (key = delayKey)
       then Some (25 * time.Hour)
       else if bool_decide (key = hourKey) then Some (25 * time.Hour)
            else redis.ttl c !! key.
Proof.
rewrite pipeline_unfold.
rewrite ttl_SAdd, ttl_Expire.
rewrite (exists_key_set _ instancesKey)
  by (rewrite sets_SAdd, lookup_insert_eq; eauto).
cbn [andb]. case_bool_decide as Hi; [done|].
rewrite ttl_SAdd, ttl_Expire.
destruct (delay_keys_differ t t host host) as (Hhd & _).
rewrite (exists_key_ext c (redis.Expire hourKey (25 * time.Hour) hashed) delayKey).
- destruct (redis.exists_key c delayKey && bool_decide (key = delayKey)); [done|].
  rewrite ttl_Expire, hashed_exists. cbn [andb].
  case_bool_decide; [done|]. by rewrite hashed_ttl.
- by rewrite strs_Expire, hashed_strs.
- rewrite hashes_Expire. apply hashed_hashes. fold hourKey delayKey in Hhd. congruence.
- by rewrite sets_Expire, hashed_sets.
Qed.
End Pipeline.

(** [RecordDelay] lists the host among the instances of the hour and among
    all instances, and strikes no host from any set; the hash of the hour
    and the set of the hour are given 25 hours to live. *)
Theorem delay_registers_instance record w c :
  redisClient w = Some c ->
  let host := delaymetrics.InstanceHost record in
  let c' := recorded record w c in
  redisClient (fst (delaymetrics.RecordDelay record w)) = Some c'
  /\ host ∈ members (instancesKeyAt (now w)) c'
  /\ host ∈ members "fdma:all_instances" c'
  /\ (forall key h, h ∈ members key c -> h ∈ members key c')
  /\ redis.ttl c' !! hourKeyAt (now w) host = Some (25 * time.Hour)
  /\ redis.ttl c' !! instancesKeyAt (now w) = Some (25 * time.Hour).
Proof.
  intros Hc host c'. split; [by apply RecordDelay_client|].
  assert (Hsets : redis.sets c'
            = <["fdma:all_instances" := {[host]} ∪ members "fdma:all_instances" c]>
                (<[instancesKeyAt (now w) :=
                     {[host]} ∪ members (instancesKeyAt (now w)) c]>
                   (redis.sets c))).
  { subst c'. unfold recorded. rewrite sets_updateMinMaxScript.
    apply pipeline_sets. }
  destruct (delay_keys_differ (now w) (now w) host host)
    as (_ & Hhi & _ & _ & _ & Hia).
  split; [|split; [|split; [|split]]].
  - unfold members at 1. rewrite Hsets.
    rewrite lookup_insert_ne, lookup_insert_eq by done. cbn [from_option id].
    apply elem_of_union_l. by apply elem_of_singleton_2.
  - unfold members at 1. rewrite Hsets, lookup_insert_eq. cbn [from_option id].
    apply elem_of_union_l. by apply elem_of_singleton_2.
  - intros key h Hh. unfold members at 1. rewrite Hsets.
    destruct (decide (key = "fdma:all_instances")) as [->|Ha].
    { rewrite lookup_insert_eq. cbn [from_option id]. by apply elem_of_union_r. }
    rewrite lookup_insert_ne by done.
    destruct (decide (key = instancesKeyAt (now w))) as [->|Hi].
    { rewrite lookup_insert_eq. cbn [from_option id]. by apply elem_of_union_r. }
    by rewrite lookup_insert_ne.
  - subst c'. unfold recorded. rewrite ttl_updateMinMaxScript, pipeline_ttl.
    rewrite bool_decide_false by done.
    destruct (delay_keys_differ (now w) (now w) host host) as (Hhd & _).
    rewrite (bool_decide_false (_ = delayKeyAt _ _)) by done.
    rewrite andb_false_r. by rewrite bool_decide_true.
  - subst c'. unfold recorded. rewrite ttl_updateMinMaxScript, pipeline_ttl.
    by rewrite bool_decide_true.
Qed.

(** [RecordDelay] touches nothing else: no string key, no hash but the one
    of the host's hour, no set but the two instance sets, no time to live
    but those of its own keys, so that the set of all instances never
    expires; and the key it names for the delays of the hour is never
    created.  [RelayState] is left alone. *)
Theorem delay_record_frame record w c :
  redisClient w = Some c ->
  let host := delaymetrics.InstanceHost record in
  let hourKey := hourKeyAt (now w) host in
  let delayKey := delayKeyAt (now w) host in
  let instancesKey := instancesKeyAt (now w) in
  let c' := recorded record w c in
  redisClient (fst (delaymetrics.RecordDelay record w)) = Some c'
  /\ RelayState (fst (delaymetrics.RecordDelay record w)) = RelayState w
  /\ redis.strs c' = redis.strs c
  /\ (forall key, key <> hourKey -> redis.hashes c' !! key = redis.hashes c !! key)
  /\ (forall key, key <> instancesKey -> key <> "fdma:all_instances" ->
      redis.sets c' !! key = redis.sets c !! key)
  /\ (forall key, key <> hourKey -> key <> delayKey -> key <> instancesKey ->
      redis.ttl c' !! key = redis.ttl c !! key)
  /\ redis.ttl c' !! "fdma:all_instances" = redis.ttl c !! "fdma:all_instances"
  /\ (redis.exists_key c delayKey = false ->
      redis.exists_key c' delayKey = false
      /\ redis.ttl c' !! delayKey = redis.ttl c !! delayKey).
Proof.
  intros Hc host hourKey delayKey instancesKey c'.
  destruct (delay_keys_differ (now w) (now w) host host)
    as (Hhd & Hhi & Hha & Hdi & Hda & Hia).
  fold hourKey delayKey instancesKey in Hhd, Hhi, Hha, Hdi, Hda, Hia.
  assert (Hstrs : redis.strs c' = redis.strs c).
  { subst c'. unfold recorded. by rewrite strs_updateMinMaxScript, pipeline_strs. }
  assert (Hhashes : forall key, key <> hourKey ->
            redis.hashes c' !! key = redis.hashes c !! key).
  { intros key Hk. subst c'. unfold recorded.
    rewrite hashes_updateMinMaxScript by done. by apply pipeline_hashes. }
  assert (Hsets : forall key, key <> instancesKey -> key <> "fdma:all_instances" ->
            redis.sets c' !! key = redis.sets c !! key).
  { intros key Hi Ha. subst c'. unfold recorded.
    rewrite sets_updateMinMaxScript, pipeline_sets.
    by rewrite !lookup_insert_ne. }
  assert (Httl : forall key, key <> hourKey -> key <> instancesKey ->
            redis.ttl c' !! key
            = if redis.exists_key c delayKey && bool_decide (key = delayKey)
              then Some (25 * time.Hour) else redis.ttl c !! key).
  { intros key Hh Hi. subst c'. unfold recorded.
    rewrite ttl_updateMinMaxScript, pipeline_ttl.
    rewrite bool_decide_false by done.
    destruct (_ && _); [done|]. by rewrite bool_decide_false. }
  split; [by apply RecordDelay_client|].
  split. { unfold delaymetrics.RecordDelay. by rewrite Hc. }
  split; [done|]. split; [done|]. split; [done|].
  split. { intros key Hh Hd Hi. rewrite Httl by done.
           rewrite (bool_decide_false (key = delayKey)) by done.
           by rewrite andb_false_r. }
  split. { rewrite Httl by (intros H; symmetry in H; done).
           rewrite (bool_decide_false (_ = delayKey)); [|intros H; symmetry in H; done].
           by rewrite andb_false_r. }
  intros Hex. split.
  - rewrite <- Hex. apply exists_key_ext; [by rewrite Hstrs| |].
    + apply Hhashes. congruence.
    + apply Hsets; done.
  - rewrite Httl by congruence. by rewrite Hex.
Qed.

(** ** Reading the delay metrics back *)








Lemma wrap64_add_l (x y : Z) : wrap64 (wrap64 x + y) = wrap64 (x + y).
Proof.
  unfold wrap64. f_equal.
  replace ((x + 2 ^ 63) mod 2 ^ 64 - 2 ^ 63 + y + 2 ^ 63)
    with ((x + 2 ^ 63) mod 2 ^ 64 + y) by lia.
  rewrite Zplus_mod_idemp_l. f_equal. lia.
Qed.

Section ReadMetrics.
Context (F : Float64).
Context (SMembers : gset string -> list string).
Context (mapRange : forall A, list (string * A) -> list (string * A)).

Lemma getInstanceStats_SampleCount c bucket host stats :
delayread.getInstanceStats F c bucket host = Some stats ->
delayread.SampleCount stats <> 0
/\ delayread.SampleCount stats
   = ParseInt (delayread.text F
       (redis.HGet ("fdma:hour:" +:+ FormatInt bucket +:+ ":" +:+ host) "count" c))
/\ redis.hash c ("fdma:hour:" +:+ FormatInt bucket +:+ ":" +:+ host) <> ∅.
Proof.
unfold delayread.getInstanceStats. cbv zeta.
destruct (decide (size _ = 0%nat)) as [|Hsize]; [done|].
destruct (decide (ParseInt _ = 0)) as [|Hcount]; [done|].
intros [= <-]. cbn [delayread.SampleCount]. repeat split; [done|].
intros He. apply Hsize. rewrite He. apply map_size_empty.
Qed.

Lemma aggregate_total host stats m h x :
delayread.holds F m h x ->
delayread.holds F (delayread.aggregate F host stats m) h
    (x + if decide (h = host) then delayread.SampleCount stats else 0).
Proof.
intros [Ht Hn]. unfold delayread.holds, delayread.aggregate, delayread.total in *.
cbv zeta.
destruct (decide (h = host)) as [->|Hne].
- rewrite lookup_insert_eq. cbn [from_option delayread.TotalCount]. split; [|done].
  destruct (m !! host) as [s|] eqn:Hs; cbn [from_option] in Ht.
  + by rewrite Ht, wrap64_add_l.
  + rewrite (Hn eq_refl). done.
- rewrite lookup_insert_ne by done. rewrite Z.add_0_r. done.
Qed.

Lemma hostsLoop_collected c bucket l acc m :
fst (delayread.hostsLoop F c bucket l acc m)
= acc ++ omap (delayread.getInstanceStats F c bucket) l.
Proof.
revert acc m. induction l as [|host l IH]; intros acc m; simpl.
- by rewrite app_nil_r.
- destruct (delayread.getInstanceStats F c bucket host) as [stats|]; [|done].
  by rewrite IH, <- app_assoc.
Qed.

Lemma hostsLoop_total c bucket l acc m h x :
NoDup l ->
delayread.holds F m h x ->
delayread.holds F (snd (delayread.hostsLoop F c bucket l acc m)) h
    (x + if bool_decide (h ∈ l)
         then from_option delayread.SampleCount 0
                (delayread.getInstanceStats F c bucket h)
         else 0).
Proof.
intros Hnd. revert acc m x.
induction Hnd as [|host l Hnotin Hnd IH]; intros acc m x HI.
- cbn [delayread.hostsLoop snd].
  rewrite bool_decide_false by apply not_elem_of_nil.
  by rewrite Z.add_0_r.
- cbn [delayread.hostsLoop].
  destruct (delayread.getInstanceStats F c bucket host) as [stats|] eqn:Hg.
  + pose proof (IH (acc ++ [stats]) _ _ (aggregate_total host stats m h x HI))
      as HI'.
    destruct (decide (h = host)) as [->|Hne].
    * rewrite bool_decide_false in HI' by done.
      rewrite bool_decide_true by apply list_elem_of_here.
      rewrite Hg. cbn [from_option]. by rewrite Z.add_0_r in HI'.
    * rewrite Z.add_0_r in HI'.
      rewrite (bool_decide_ext (h ∈ host :: l) (h ∈ l)); [done|].
      rewrite elem_of_cons. intuition congruence.
  + pose proof (IH acc m x HI) as HI'.
    destruct (decide (h = host)) as [->|Hne].
    * rewrite bool_decide_false in HI' by done.
      rewrite bool_decide_true by apply list_elem_of_here.
      rewrite Hg. done.
    * rewrite (bool_decide_ext (h ∈ host :: l) (h ∈ l)); [done|].
      rewrite elem_of_cons. intuition congruence.
Qed.

Lemma hoursLoop_hourly c cur n i hourly m :
0 <= i -> i + Z.of_nat n <= int64_max ->
fst (delayread.hoursLoop F SMembers c cur n i hourly m)
= hourly ++ ((fun k => delayread.hourEntry F SMembers c cur (i + Z.of_nat k))
               <$> seq 0 n).
Proof.
revert i hourly m. induction n as [|n IH]; intros i hourly m Hi Hn.
- simpl. by rewrite app_nil_r.
- cbn [delayread.hoursLoop]. cbv zeta.
  destruct (delayread.hostsLoop F c _ _ [] m) as [collected m'] eqn:Hh.
  rewrite wrap64_id by (unfold int64_min; lia).
  rewrite IH by lia. rewrite <- app_assoc. f_equal.
  cbn [seq fmap list_fmap]. rewrite Z.add_0_r. cbn [app]. f_equal.
  + unfold delayread.hourEntry, delayread.bucketOf. cbv zeta. f_equal.
    pose proof (hostsLoop_collected c
      (wrap64 (cur - wrap64 (i * 3600)))
      (SMembers (members ("fdma:instances:"
         +:+ FormatInt (wrap64 (cur - wrap64 (i * 3600)))) c)) [] m) as Hc.
    rewrite Hh in Hc. done.
  + rewrite <- seq_shift, <- list_fmap_compose. apply list_fmap_ext.
    intros _ k _. simpl. f_equal. lia.
Qed.

Lemma hoursLoop_total c cur n i hourly m h x :
(forall X, SMembers X ≡ₚ elements X) ->
0 <= i -> i + Z.of_nat n <= int64_max ->
delayread.holds F m h x ->
delayread.holds F (snd (delayread.hoursLoop F SMembers c cur n i hourly m)) h
    (x + delayread.samplesOver F c cur n i h).
Proof.
intros HSM. revert i hourly m x.
induction n as [|n IH]; intros i hourly m x Hi Hn HI.
- simpl. by rewrite Z.add_0_r.
- cbn [delayread.hoursLoop delayread.samplesOver]. cbv zeta.
  destruct (delayread.hostsLoop F c _ _ [] m) as [collected m'] eqn:Hh.
  rewrite wrap64_id by (unfold int64_min; lia).
  rewrite Z.add_assoc. apply IH; [lia..|].
  pose proof (hostsLoop_total c (wrap64 (cur - wrap64 (i * 3600)))
    (SMembers (members ("fdma:instances:"
       +:+ FormatInt (wrap64 (cur - wrap64 (i * 3600)))) c)) [] m h x) as Ht.
  rewrite Hh in Ht. cbn [snd] in Ht.
  unfold delayread.samplesIn, delayread.bucketOf.
  erewrite (bool_decide_ext (h ∈ members _ c)); [apply Ht; [|done]|].
  + rewrite HSM. apply NoDup_elements.
  + by rewrite HSM, elem_of_elements.
Qed.
Lemma GetDelayMetrics_run hours src w c :
redisClient w = Some c ->
delayread.GetDelayMetrics F SMembers mapRange hours src w
= (ticked w,
   let loop := delayread.hoursLoop F SMembers c (hourBucket (now w))
                 (Z.to_nat hours) 0 [] ∅ in
   {| delayread.ResponseLastUpdated := time.Unix (now w);
      delayread.SourceInstance := src;
      delayread.Summary := delayread.buildSummary F mapRange (snd loop);
      delayread.Hourly := fst loop |}).
Proof.
intros Hc. unfold delayread.GetDelayMetrics. rewrite Hc.
unfold bind, ret, time_Now. cbn [fst snd]. fold (hourBucket (now w)).
by destruct (delayread.hoursLoop F SMembers c (hourBucket (now w))
              (Z.to_nat hours) 0 [] ∅).
Qed.

Lemma Hourly_GetDelayMetrics hours src w c :
redisClient w = Some c -> hours <= int64_max ->
delayread.Hourly (snd (delayread.GetDelayMetrics F SMembers mapRange hours src w))
= (fun k => delayread.hourEntry F SMembers c (hourBucket (now w)) (Z.of_nat k))
    <$> seq 0 (Z.to_nat hours).
Proof.
intros Hc Hh. rewrite (GetDelayMetrics_run hours src w c Hc).
cbn [snd delayread.Hourly]. rewrite hoursLoop_hourly by (unfold int64_max in *; lia).
cbn [app]. apply list_fmap_ext. intros _ k _. f_equal.
Qed.

(** [GetDelayMetrics] reads the clock once and stamps the response with it;
  it returns one entry for each of the [hours] asked for, the newest
  first, the [i]th stamped with the hour [i] hours before the current
  one; so it returns none when [hours] is not positive. *)
Theorem delay_metrics_hours hours src w c :
redisClient w = Some c ->
hours <= int64_max ->
let r := snd (delayread.GetDelayMetrics F SMembers mapRange hours src w) in
fst (delayread.GetDelayMetrics F SMembers mapRange hours src w) = ticked w
/\ delayread.ResponseLastUpdated r = time.Unix (now w)
/\ delayread.SourceInstance r = src
/\ length (delayread.Hourly r) = Z.to_nat hours
/\ forall i, 0 <= i < hours ->
     delayread.Timestamp <$> (delayread.Hourly r !! Z.to_nat i)
     = Some (wrap64 (hourBucket (now w) - wrap64 (i * 3600))).
Proof.
intros Hc Hh r. subst r. rewrite (Hourly_GetDelayMetrics hours src w c Hc Hh).
rewrite (GetDelayMetrics_run hours src w c Hc). cbn [fst snd].
do 3 (split; [done|]). split.
- by rewrite length_fmap, length_seq.
- intros i Hi. rewrite list_lookup_fmap, lookup_seq_lt by lia.
  cbn [fmap option_fmap option_map delayread.hourEntry delayread.Timestamp].
  unfold delayread.hourEntry, delayread.bucketOf. cbn [delayread.Timestamp].
  by rewrite Nat.add_0_l, Z2Nat.id by lia.
Qed.

(** The instances [GetDelayMetrics] lists for an hour are exactly what
  [getInstanceStats] returns for the hosts in that hour's set of
  instances: a host whose hash is empty or whose count reads as zero is
  left out, so no listed instance has a sample count of zero. *)
Theorem delay_metrics_instances hours src w c h :
redisClient w = Some c ->
hours <= int64_max ->
(forall X, SMembers X ≡ₚ elements X) ->
h ∈ delayread.Hourly
      (snd (delayread.GetDelayMetrics F SMembers mapRange hours src w)) ->
(forall stats,
   stats ∈ delayread.Instances h <->
   exists host,
     host ∈ members ("fdma:instances:" +:+ FormatInt (delayread.Timestamp h)) c
     /\ delayread.getInstanceStats F c (delayread.Timestamp h) host = Some stats)
/\ (forall stats,
      stats ∈ delayread.Instances h -> delayread.SampleCount stats <> 0).
Proof.
intros Hc Hh HSM Hin.
rewrite (Hourly_GetDelayMetrics hours src w c Hc Hh) in Hin.
apply list_elem_of_fmap in Hin as (k & -> & _).
unfold delayread.hourEntry. cbn [delayread.Timestamp delayread.Instances].
assert (Hiff : forall stats,
  stats ∈ omap (delayread.getInstanceStats F c
                  (delayread.bucketOf (hourBucket (now w)) (Z.of_nat k)))
            (SMembers (members ("fdma:instances:" +:+ FormatInt
               (delayread.bucketOf (hourBucket (now w)) (Z.of_nat k))) c)) <->
  exists host,
    host ∈ members ("fdma:instances:" +:+ FormatInt
               (delayread.bucketOf (hourBucket (now w)) (Z.of_nat k))) c
    /\ delayread.getInstanceStats F c
         (delayread.bucketOf (hourBucket (now w)) (Z.of_nat k)) host
       = Some stats).
{ intros stats. rewrite list_elem_of_omap.
  split; intros (host & Hm & Hg); exists host; split; try done.
  - by rewrite HSM, elem_of_elements in Hm.
  - by rewrite HSM, elem_of_elements. }
split; [done|]. intros stats Hs. apply Hiff in Hs as (host & _ & Hg).
by apply getInstanceStats_SampleCount in Hg as (? & _).
Qed.

Lemma elem_of_buildSummary m s :
(forall A (l : list (string * A)), mapRange A l ≡ₚ l) ->
s ∈ delayread.buildSummary F mapRange m ->
exists data, m !! delayread.Host s = Some data
  /\ 0 < delayread.TotalCount data
  /\ delayread.SampleCount s = delayread.TotalCount data.
Proof.
intros Hrange. unfold delayread.buildSummary. rewrite list_elem_of_omap.
intros ([host data] & Hin & Hf).
rewrite Hrange in Hin. apply elem_of_map_to_list in Hin.
destruct (0 <? delayread.TotalCount data) eqn:Hpos; [|done].
injection Hf as <-. cbn [delayread.Host delayread.SampleCount].
exists data. repeat split; [done|]. by apply Z.ltb_lt.
Qed.

Lemma buildSummary_elem m host data :
(forall A (l : list (string * A)), mapRange A l ≡ₚ l) ->
m !! host = Some data ->
0 < delayread.TotalCount data ->
exists s, s ∈ delayread.buildSummary F mapRange m /\ delayread.Host s = host.
Proof.
intros Hrange Hm Hpos. unfold delayread.buildSummary.
eexists. rewrite list_elem_of_omap. split.
- exists (host, data). split.
  + rewrite Hrange. by apply elem_of_map_to_list.
  + rewrite (proj2 (Z.ltb_lt _ _) Hpos). reflexivity.
- done.
Qed.

Lemma NoDup_buildSummary m :
(forall A (l : list (string * A)), mapRange A l ≡ₚ l) ->
NoDup (delayread.Host <$> delayread.buildSummary F mapRange m).
Proof.
intros Hrange. unfold delayread.buildSummary.
assert (Hnd : NoDup (mapRange _ (map_to_list m)).*1).
{ rewrite Hrange. apply NoDup_fst_map_to_list. }
induction (mapRange _ (map_to_list m)) as [|[host data] l IH].
- constructor.
- rewrite fmap_cons in Hnd. apply NoDup_cons in Hnd as [Hnotin Hnd].
  cbn [omap list_omap]. destruct (0 <? delayread.TotalCount data).
  + rewrite fmap_cons. cbn [delayread.Host]. apply NoDup_cons. split; [|by apply IH].
    intros Hin. apply Hnotin.
    apply list_elem_of_fmap in Hin as (s & -> & Hs).
    apply list_elem_of_omap in Hs as ([host' data'] & Hin' & Hf).
    destruct (0 <? delayread.TotalCount data'); [|done].
    injection Hf as <-. cbn [delayread.Host].
    apply list_elem_of_fmap. by exists (host', data').
  + by apply IH.
Qed.

(** The summary of [GetDelayMetrics] names each host at most once; the
  sample count it gives for a host is the sum, in 64 bits, of the counts
  of that host over the hours read, each hour counting only if the host
  is in that hour's set of instances; and a host is in the summary exactly
  when this sum is positive. *)
Theorem delay_metrics_summary hours src w c :
redisClient w = Some c ->
hours <= int64_max ->
(forall X, SMembers X ≡ₚ elements X) ->
(forall A (l : list (string * A)), mapRange A l ≡ₚ l) ->
let r := snd (delayread.GetDelayMetrics F SMembers mapRange hours src w) in
let samples :=
  delayread.samplesOver F c (hourBucket (now w)) (Z.to_nat hours) 0 in
NoDup (delayread.Host <$> delayread.Summary r)
/\ (forall s, s ∈ delayread.Summary r ->
      delayread.SampleCount s = wrap64 (samples (delayread.Host s))
      /\ 0 < delayread.SampleCount s)
/\ (forall host, 0 < wrap64 (samples host) ->
      exists s, s ∈ delayread.Summary r /\ delayread.Host s = host).
Proof.
intros Hc Hh HSM Hrange r samples. subst r samples.
rewrite (GetDelayMetrics_run hours src w c Hc).
cbn [snd delayread.Summary].
assert (Hinv : forall host,
  delayread.holds F
    (snd (delayread.hoursLoop F SMembers c (hourBucket (now w))
            (Z.to_nat hours) 0 [] ∅)) host
    (delayread.samplesOver F c (hourBucket (now w)) (Z.to_nat hours) 0 host)).
{ intros host.
  rewrite <- (Z.add_0_l (delayread.samplesOver _ _ _ _ _ _)).
  apply hoursLoop_total; [done|lia|unfold int64_max in *; lia|].
  split; [|done]. unfold delayread.total. by rewrite lookup_empty. }
split; [by apply NoDup_buildSummary|]. split.
- intros s Hs.
  apply elem_of_buildSummary in Hs as (data & Hm & Hpos & Hcount); [|done].
  destruct (Hinv (delayread.Host s)) as [Ht _].
  unfold delayread.total in Ht. rewrite Hm in Ht. cbn [from_option] in Ht.
  rewrite Hcount. by rewrite <- Ht.
- intros host Hpos. destruct (Hinv host) as [Ht Hnone].
  unfold delayread.total in Ht.
  destruct (_ !! host) as [data|] eqn:Hm.
  + cbn [from_option] in Ht.
    apply (buildSummary_elem _ host data); [done..|]. by rewrite Ht.
  + rewrite (Hnone eq_refl) in Hpos. by vm_compute in Hpos.
Qed.
End ReadMetrics.

(** ** Recording a delay, then reading it back *)

Section Recorded.
Context (record : delaymetrics.DelayRecord) (w : World) (c : redis.Client).

Lemma recorded_field field :
field <> "min_delay" -> field <> "max_delay" ->
redis.HGet (hourKeyAt (now w) (delaymetrics.InstanceHost record)) field
  (recorded record w c)
= redis.HGet (hourKeyAt (now w) (delaymetrics.InstanceHost record)) field
    (redis.HSetNX (hourKeyAt (now w) (delaymetrics.InstanceHost record)) "max_delay"
       (redis.VFloat (delaymetrics.DelaySeconds record))
       (delaymetrics.pipeline record (now w) c)).
Proof.
intros Hmin Hmax. unfold recorded.
rewrite HGet_updateMinMaxScript by done.
by rewrite HGet_HSetNX_other.
Qed.





End Recorded.


Section ReadBack.
Context (F : Float64).
Context (SMembers : gset string -> list string).
Context (mapRange : forall A, list (string * A) -> list (string * A)).





End ReadBack.

(** ** The layouts of a published timestamp are tried in order *)

Lemma parseLoop_lookup E fs s last (k : nat) layout t :
  fs !! k = Some layout ->
  time_Parse E layout s = Some t ->
  (forall (j : nat) g, (j < k)%nat -> fs !! j = Some g -> time_Parse E g s = None) ->
  parseLoop E fs s last = inr t.
Proof.
  revert k last. induction fs as [|f fs IH]; intros k last Hk Ht Hbefore; [done|].
  destruct k as [|k]; simpl in *.
  - injection Hk as ->. by rewrite Ht.
  - rewrite (Hbefore 0%nat f) by (done || lia).
    apply (IH k); [done..|].
    intros j g Hj Hg. apply (Hbefore (S j) g); [lia|done].
Qed.

Lemma parseLoop_none E fs s e :
  (forall layout, layout ∈ fs -> time_Parse E layout s = None) ->
  exists e', parseLoop E fs s (inl e) = inl e'.
Proof.
  revert e. induction fs as [|f fs IH]; intros e Hnone; simpl; [by exists e|].
  rewrite (Hnone f) by apply list_elem_of_here.
  apply IH. intros layout Hin. apply Hnone. by apply list_elem_of_further.
Qed.

(** [recordDelayMetrics] tries the four layouts in order and stops at the
    first that parses: the record it builds is measured from the time that
    layout gives, whatever a later layout would give; when none of the four
    parses the timestamp it builds no record and leaves the world as it
    is. *)
Theorem delay_uses_first_layout E activity u receivedAt :
  let published := publishedOf activity in
  ((forall layout, layout ∈ formats -> time_Parse E layout published = None) ->
   delayRecord E activity u receivedAt = None
   /\ forall w,
        fst (recordDelayMetrics E (Some activity) (Some u) receivedAt w) = w)
  /\ (forall (k : nat) layout createdAt record,
        formats !! k = Some layout ->
        time_Parse E layout published = Some createdAt ->
        (forall (j : nat) g, (j < k)%nat -> formats !! j = Some g ->
                             time_Parse E g published = None) ->
        delayRecord E activity u receivedAt = Some record ->
        delaymetrics.CreatedAt record = createdAt
        /\ delaymetrics.DelaySeconds record = receivedAt - createdAt).
Proof.
  intros published. split.
  - intros Hnone.
    assert (Hrec : delayRecord E activity u receivedAt = None).
    { unfold delayRecord.
      pose proof (extractCreatedAt_spec activity) as Hx.
      destruct (extractCreatedAt activity) as [createdAtStr objectID].
      destruct Hx as [-> _]. fold published.
      destruct (decide (published = "")); [done|].
      unfold formats in *. cbn [parseLoop].
      rewrite (Hnone RFC.RFC3339) by apply list_elem_of_here.
      destruct (parseLoop_none E
                  [RFC.RFC3339Nano; "2006-01-02T15:04:05.000Z"; "2006-01-02T15:04:05Z"]
                  published "parsing time") as (e' & He').
      { intros layout Hin. apply Hnone. by apply list_elem_of_further. }
      cbn [parseLoop] in He'. by rewrite He'. }
    split; [done|]. intros w. unfold recordDelayMetrics. by rewrite Hrec.
  - intros k layout createdAt record Hk Ht Hbefore Hrec.
    unfold delayRecord in Hrec.
    pose proof (extractCreatedAt_spec activity) as Hx.
    destruct (extractCreatedAt activity) as [createdAtStr objectID].
    destruct Hx as [-> _]. fold published in Hrec.
    destruct (decide (published = "")); [done|].
    rewrite (parseLoop_lookup E formats published (inr zeroTime) k layout createdAt
               Hk Ht Hbefore) in Hrec.
    destruct (_ || _) eqn:Hr; [done|].
    apply Sub_in_range in Hr as [Hsub _]. rewrite Hsub in Hrec.
    by injection Hrec as <-.
Qed.

(** ** The further properties on the example world *)

Lemma inbox_increment_counts_witness :
  inboxTotal w < int64_max
  /\ inboxCount (minuteBucket (now w)) w < int64_max
  /\ inboxTotal (fst (IncrementInboxCount w)) = inboxTotal w + 1
  /\ inboxCount (minuteBucket (now w)) (fst (IncrementInboxCount w))
     = inboxCount (minuteBucket (now w)) w + 1.
Proof.
  assert (H1 : inboxTotal w < int64_max) by (vm_compute; reflexivity).
  assert (H2 : inboxCount (minuteBucket (now w)) w < int64_max)
    by (vm_compute; reflexivity).
  split; [exact H1|]. split; [exact H2|].
  destruct (inbox_increment_counts w H1 H2) as (Ht & Hb & _).
  split; [exact Ht|exact Hb].
Defined.

Lemma outbox_increment_counts_witness :
  outboxTotal w < int64_max
  /\ outboxCount (minuteBucket (now w)) w < int64_max
  /\ outboxTotal (fst (IncrementOutboxCount w)) = outboxTotal w + 1
  /\ outboxCount (minuteBucket (now w)) (fst (IncrementOutboxCount w))
     = outboxCount (minuteBucket (now w)) w + 1.
Proof.
  assert (H1 : outboxTotal w < int64_max) by (vm_compute; reflexivity).
  assert (H2 : outboxCount (minuteBucket (now w)) w < int64_max)
    by (vm_compute; reflexivity).
  split; [exact H1|]. split; [exact H2|].
  destruct (outbox_increment_counts w H1 H2) as (Ht & Hb & _).
  split; [exact Ht|exact Hb].
Defined.


Lemma inbox_counts_every_post_witness :
  inboxTotal w < int64_max
  /\ inboxCount (minuteBucket (now (ticked w))) w < int64_max
  /\ Method (post "raw") = "POST"
  /\ inboxTotal (atSwitch E relayedNote w) = inboxTotal w + 1.
Proof.
  assert (H1 : inboxTotal w < int64_max) by (vm_compute; reflexivity).
  assert (H2 : inboxCount (minuteBucket (now (ticked w))) w < int64_max)
    by (vm_compute; reflexivity).
  split; [exact H1|]. split; [exact H2|]. split; [reflexivity|].
  destruct (inbox_counts_every_post E (post "raw") (decoded relayedNote alice) w
              H1 H2) as (_ & _ & H).
  destruct (H eq_refl relayedNote alice "raw" eq_refl) as (Ht & _).
  exact Ht.
Defined.


Lemma delay_registers_instance_witness :
  redisClient w = Some redis.empty
  /\ "a.example" ∈ members (instancesKeyAt (now w)) (recorded sample.delay w redis.empty)
  /\ "a.example" ∈ members "fdma:all_instances" (recorded sample.delay w redis.empty).
Proof.
  split; [reflexivity|].
  destruct (delay_registers_instance sample.delay w redis.empty eq_refl)
    as (_ & Hhour & Hall & _).
  split; [exact Hhour|exact Hall].
Defined.

Lemma delay_record_frame_witness :
  redisClient w = Some redis.empty
  /\ RelayState (fst (delaymetrics.RecordDelay sample.delay w)) = RelayState w
  /\ redis.strs (recorded sample.delay w redis.empty) = redis.strs redis.empty.
Proof.
  split; [reflexivity|].
  destruct (delay_record_frame sample.delay w redis.empty eq_refl)
    as (_ & Hrs & Hstrs & _).
  split; [exact Hrs|exact Hstrs].
Defined.

Lemma delay_metrics_hours_witness :
  redisClient w = Some redis.empty
  /\ 2 <= int64_max
  /\ length (delayread.Hourly
               (snd (delayread.GetDelayMetrics sample.F sample.SMembers
                       sample.mapRange 2 "relay.example" w))) = 2%nat.
Proof.
  assert (H2 : 2 <= int64_max) by (vm_compute; discriminate).
  split; [reflexivity|]. split; [exact H2|].
  destruct (delay_metrics_hours sample.F sample.SMembers sample.mapRange 2
              "relay.example" w redis.empty eq_refl H2) as (_ & _ & _ & Hlen & _).
  exact Hlen.
Defined.

Lemma delay_metrics_instances_witness :
  let w2 := fst (delaymetrics.RecordDelay sample.delay w) in
  let c2 := recorded sample.delay w redis.empty in
  let r := snd (delayread.GetDelayMetrics sample.F sample.SMembers sample.mapRange
                  1 "relay.example" w2) in
  redisClient w2 = Some c2
  /\ 1 <= int64_max
  /\ (forall X, sample.SMembers X ≡ₚ elements X)
  /\ exists h, h ∈ delayread.Hourly r
       /\ forall stats, stats ∈ delayread.Instances h ->
                        delayread.SampleCount stats <> 0.
Proof.
  intros w2 c2 r.
  assert (Hc : redisClient w2 = Some c2)
    by exact (RecordDelay_client sample.delay w redis.empty eq_refl).
  assert (H1 : 1 <= int64_max) by (vm_compute; discriminate).
  assert (HSM : forall X, sample.SMembers X ≡ₚ elements X) by reflexivity.
  split; [exact Hc|]. split; [exact H1|]. split; [exact HSM|].
  assert (Hin : delayread.hourEntry sample.F sample.SMembers c2
                  (hourBucket (now w2)) (Z.of_nat 0) ∈ delayread.Hourly r).
  { subst r.
    rewrite (Hourly_GetDelayMetrics sample.F sample.SMembers sample.mapRange
               1 "relay.example" w2 c2 Hc H1).
    apply list_elem_of_here. }
  eexists. split; [exact Hin|].
  exact (proj2 (delay_metrics_instances sample.F sample.SMembers sample.mapRange
                  1 "relay.example" w2 c2 _ Hc H1 HSM Hin)).
Defined.

Lemma delay_metrics_summary_witness :
  let w2 := fst (delaymetrics.RecordDelay sample.delay w) in
  let c2 := recorded sample.delay w redis.empty in
  let r := snd (delayread.GetDelayMetrics sample.F sample.SMembers sample.mapRange
                  1 "relay.example" w2) in
  redisClient w2 = Some c2
  /\ 1 <= int64_max
  /\ (forall X, sample.SMembers X ≡ₚ elements X)
  /\ (forall A (l : list (string * A)), sample.mapRange A l ≡ₚ l)
  /\ NoDup (delayread.Host <$> delayread.Summary r).
Proof.
  intros w2 c2 r.
  assert (Hc : redisClient w2 = Some c2)
    by exact (RecordDelay_client sample.delay w redis.empty eq_refl).
  assert (H1 : 1 <= int64_max) by (vm_compute; discriminate).
  assert (HSM : forall X, sample.SMembers X ≡ₚ elements X) by reflexivity.
  assert (Hrange : forall A (l : list (string * A)), sample.mapRange A l ≡ₚ l)
    by reflexivity.
  split; [exact Hc|]. split; [exact H1|]. split; [exact HSM|].
  split; [exact Hrange|].
  exact (proj1 (delay_metrics_summary sample.F sample.SMembers sample.mapRange
                  1 "relay.example" w2 c2 Hc H1 HSM Hrange)).
Defined.


